(** * zk language server: link resolution, diagnostics, completion, commands

    A shallow embedding of [internal/adapter/lsp/server.go].  Functions of
    the file are translated one to one and keep their Go names.  Code the
    file calls but does not contain (the [core] notebook and its index, the
    document store of [document.go], [strutil.IsURL], [path/filepath]) is
    gathered in the class [Collaborators]; the general theorems hold for any
    implementation of it.

    Go conventions used throughout:
    - a pair [(x, err)] whose two halves the source inspects is a pair of
      options; a pair of which only [err] is inspected is a sum;
    - [uint32] fields are [Z] with the wrap-around written out;
    - [string] is a sequence of bytes, as [len] and slicing see it in Go;
    - effects (index queries, log lines, messages to the client) are
      collected in an event trace by the writer monad [M];
    - goroutines are tasks in an interleaving step relation. *)

From stdpp Require Import base strings gmap list.
From Stdlib Require Import Ascii DecimalString ZArith Lia.

Open Scope string_scope.
Open Scope list_scope.
Open Scope Z_scope.

(** ** Errors *)

(** Go [error] values.  [Wrap] is [errors.Wrapf]; [ErrNoteExists] is
    [core.ErrNoteExists], of which the server reads the field [Name]. *)
Inductive error : Type :=
| ErrMsg (msg : string)
| ErrNoteExists (Name : string)
| Wrap (cause : error) (msg : string).

(** [errors.As(err, &noteExists)]: the first [core.ErrNoteExists] in the
    chain of wrapped errors. *)
Fixpoint errors_As_NoteExists (err : error) : option string :=
  match err with
  | ErrMsg _ => None
  | ErrNoteExists name => Some name
  | Wrap cause _ => errors_As_NoteExists cause
  end.

Definition isNil {A : Type} (p : option A) : bool :=
  match p with
  | None => true
  | Some _ => false
  end.

(** ** The [protocol] data the server builds *)

Module protocol.

Definition uint32_wrap (z : Z) : Z := z mod 2 ^ 32.

Record Position : Type := { Line : Z; Character : Z }.

Record Range : Type := { Start : Position; End : Position }.

Record Location : Type := { URI : string; Range_ : Range }.

Record TextEdit : Type := { TextEdit_Range : Range; NewText : string }.

Record Diagnostic (Severity_t : Type) : Type :=
  { Diagnostic_Range : Range;
    Severity : Severity_t;
    Source : string;
    Message : string }.

Record CompletionItem : Type :=
  { Label : string;
    Data : string;
    FilterText : option string;
    Detail : option string;
    InsertText : option string;
    TextEdit_ : option TextEdit;
    AdditionalTextEdits : list TextEdit }.

End protocol.

Arguments protocol.Diagnostic_Range {_} _.
Arguments protocol.Severity {_} _.
Arguments protocol.Source {_} _.
Arguments protocol.Message {_} _.

(** ** The [core] data the server reads *)

Module core.

(** [core.LSPDiagnosticSeverity]; [protocol.DiagnosticSeverity(x)] keeps
    the value. *)
Inductive LSPDiagnosticSeverity : Type :=
| LSPDiagnosticNone
| LSPDiagnosticError
| LSPDiagnosticWarning
| LSPDiagnosticInfo
| LSPDiagnosticHint.

Definition isNone (s : LSPDiagnosticSeverity) : bool :=
  match s with
  | LSPDiagnosticNone => true
  | _ => false
  end.

Record LSPDiagnosticConfig : Type :=
  { WikiTitle : LSPDiagnosticSeverity; DeadLink : LSPDiagnosticSeverity }.

Record MarkdownConfig : Type :=
  { Hashtags : bool; ColonTags : bool; MultiwordTags : bool }.

(** [Config.LSP.Completion.Note]: the three optional template sources. *)
Record LSPCompletionTemplates : Type :=
  { LabelSrc : option string;
    FilterTextSrc : option string;
    DetailSrc : option string }.

Record Config : Type :=
  { Format_Markdown : MarkdownConfig;
    LSP_Diagnostics : LSPDiagnosticConfig;
    LSP_Completion_Note : LSPCompletionTemplates }.

Record MinimalNote : Type := { ID : Z; Path : string; Title : string }.

Record Note : Type :=
  { Note_ID : Z; Note_Path : string; Note_Title : string; RawContent : string }.

Record Collection : Type := { Name : string; NoteCount : Z }.

Record NewNoteOpts : Type :=
  { NewNote_Title : option string;
    NewNote_Content : string;
    NewNote_Directory : option string;
    NewNote_Group : option string;
    NewNote_Template : option string;
    NewNote_Extra : list (string * string);
    NewNote_Date : Z }.

End core.

Definition Diagnostic : Type := protocol.Diagnostic core.LSPDiagnosticSeverity.

(** ** Documents and links ([document.go] declares them) *)

(** [document]: the fields the server reads, and the refresh flag it
    writes. *)
Record document : Type :=
  { docURI : string;
    docPath : string;
    docContent : string;
    NeedsRefreshDiagnostics : bool }.

Definition setNeedsRefreshDiagnostics (b : bool) (doc : document) : document :=
  {| docURI := docURI doc;
     docPath := docPath doc;
     docContent := docContent doc;
     NeedsRefreshDiagnostics := b |}.

Definition setContent (text : string) (doc : document) : document :=
  {| docURI := docURI doc;
     docPath := docPath doc;
     docContent := text;
     NeedsRefreshDiagnostics := NeedsRefreshDiagnostics doc |}.

Record documentLink : Type :=
  { Href : string;
    Range : protocol.Range;
    HasTitle : bool;
    IsWikiLink : bool }.

(** [Note]: a [core.MinimalNote] with the URI of its file. *)
Record Note : Type := { MinimalNote : core.MinimalNote; URI : string }.

Definition LinkFormatterContext : Type := (core.MinimalNote * string * string)%type.

Definition LinkFormatter : Type := LinkFormatterContext -> string + error.

(** [completionTemplates]: the optional label, filter-text and detail
    templates of a completion item. *)
Record completionTemplates (Template : Type) : Type :=
  { Label : option Template;
    FilterText : option Template;
    Detail : option Template }.

Arguments Label {_} _.
Arguments FilterText {_} _.
Arguments Detail {_} _.

(** [cmdNewOpts]: the options of the command [zk.new]. *)
Record cmdNewOpts : Type :=
  { Title : string;
    Content : string;
    Dir : string;
    Group : string;
    Template_ : string;
    Extra : list (string * string);
    Date : string;
    Edit_ : bool;
    InsertLinkAtLocation : option protocol.Location }.

(** ** Collaborators *)

(** A [Notebook] is a handle; what its index holds at a given moment is
    part of the [NotebookStore], which every operation on the index reads
    and [NewNote] changes. *)
Class Collaborators : Type :=
  { (* strutil, fmt, path/filepath, uri.go *)
    IsURL : string -> bool;
    Pluralize : string -> Z -> string;
    Sprint_int : Z -> string;
    filepath_Join : string -> string -> string;
    filepath_Clean : string -> string;
    filepath_Dir : string -> string;
    filepath_Rel : string -> string -> string + error;
    pathToURI : string -> string;
    (* core.NotebookStore and core.Notebook *)
    NotebookStore : Type;
    Notebook : Type;
    Notebook_Path : Notebook -> string;
    Notebook_Config : Notebook -> core.Config;
    Open : NotebookStore -> string -> Notebook + error;
    FindByHref : NotebookStore -> Notebook -> string -> bool ->
                 option core.MinimalNote * option error;
    FindMatching : NotebookStore -> Notebook -> string ->
                   option core.MinimalNote * option error;
    FindNotes_LinkTo : NotebookStore -> Notebook -> list string -> list core.Note + error;
    FindMinimalNotes : NotebookStore -> Notebook -> list core.MinimalNote + error;
    FindNote_IncludePaths : NotebookStore -> Notebook -> list string ->
                            option core.Note * option error;
    FindCollections_Tag : NotebookStore -> Notebook -> list core.Collection + error;
    NewNote : NotebookStore -> Notebook -> core.NewNoteOpts ->
              (option core.Note * option error) * NotebookStore;
    RelPath : Notebook -> string -> string + error;
    NewLinkFormatter : Notebook -> LinkFormatter + error;
    NewMarkdownLinkFormatter : core.MarkdownConfig -> bool -> LinkFormatter + error;
    NewLinkFormatterContext : core.MinimalNote -> string -> string ->
                              LinkFormatterContext + error;
    AsMinimalNote : core.Note -> core.MinimalNote;
    TimeFromNatural : string -> Z + error;
    (* encoding/json *)
    JSONMap : Type;
    unmarshalJSON : JSONMap -> cmdNewOpts + error;
    (* templates.go *)
    RenderContext : Type;
    Template : Type;
    newCompletionTemplates : core.LSPCompletionTemplates ->
                             completionTemplates Template + error;
    Render : Template -> RenderContext -> string + error;
    newCompletionItemRenderContext : core.MinimalNote -> string -> string ->
                                     RenderContext + error;
    (* document.go *)
    DocumentLinks : document -> list documentLink + error;
    DocumentLinkAt : document -> protocol.Position -> option documentLink + error;
    LookBehind : document -> protocol.Position -> Z -> string;
    LookForward : document -> protocol.Position -> Z -> string;
    ContentAtRange : document -> protocol.Range -> string }.

(** ** Events and the writer monad *)

Inductive Event `{Collaborators} : Type :=
| QFindByHref (nb : Notebook) (href : string) (partial : bool)
| QFindMatching (nb : Notebook) (query : string)
| QFindNotes (nb : Notebook) (linkTo : list string)
| QFindMinimalNotes (nb : Notebook)
| QFindNote (nb : Notebook) (includePaths : list string)
| QFindCollections (nb : Notebook)
| Log (msg : string) (err : error)
| LogErr (err : error)
| PublishDiagnostics (uri : string) (diagnostics : list Diagnostic)
| ApplyEdit (uri : string) (edit : protocol.TextEdit)
| ShowDocument (uri : string) (takeFocus : bool).

(** An index query is a call that reads the note index. *)
Definition isIndexQuery `{Collaborators} (e : Event) : bool :=
  match e with
  | QFindByHref _ _ _ | QFindMatching _ _ | QFindNotes _ _
  | QFindMinimalNotes _ | QFindNote _ _ | QFindCollections _ => true
  | _ => false
  end.

Definition isPublish `{Collaborators} (e : Event) : bool :=
  match e with
  | PublishDiagnostics _ _ => true
  | _ => false
  end.

Definition M `{Collaborators} (A : Type) : Type := (A * list Event)%type.

Definition ret `{Collaborators} {A : Type} (a : A) : M A := (a, []).

Definition bind `{Collaborators} {A B : Type} (m : M A) (k : A -> M B) : M B :=
  let '(a, t1) := m in
  let '(b, t2) := k a in
  (b, t1 ++ t2).

Definition tell `{Collaborators} (e : Event) : M unit := (tt, [e]).

Definition value `{Collaborators} {A : Type} (m : M A) : A := fst m.

Definition trace `{Collaborators} {A : Type} (m : M A) : list Event := snd m.

Notation "x <- m ;; k" := (bind m (fun x => k))
  (at level 100, m at next level, right associativity).
Notation "m ;;; k" := (bind m (fun _ => k))
  (at level 100, right associativity).

(** The collaborator calls that read the index leave a trace. *)
Definition notebook_FindByHref `{Collaborators} (notebooks : NotebookStore)
    (nb : Notebook) (href : string) (partial : bool)
    : M (option core.MinimalNote * option error) :=
  tell (QFindByHref nb href partial) ;;;
  ret (FindByHref notebooks nb href partial).

Definition notebook_FindMatching `{Collaborators} (notebooks : NotebookStore)
    (nb : Notebook) (query : string)
    : M (option core.MinimalNote * option error) :=
  tell (QFindMatching nb query) ;;;
  ret (FindMatching notebooks nb query).

Definition logger_Err `{Collaborators} (err : option error) : M unit :=
  match err with
  | Some e => tell (LogErr e)
  | None => ret tt
  end.

(** ** Link resolution (server.go, lines 622-675) *)

Section LinkResolver.

Context `{Collaborators}.

(** The receiver's field [s.notebooks]. *)
Variable notebooks : NotebookStore.

(** [noteForHref]: the note at the path [href] names, relative to the
    directory of the document. *)
Definition noteForHref (href : string) (doc : document) (notebook : Notebook)
    : M (option core.MinimalNote * option error) :=
  if IsURL href then ret (None, None)
  else
    let path := filepath_Clean (filepath_Join (filepath_Dir (docPath doc)) href) in
    match filepath_Rel (Notebook_Path notebook) path with
    | inr err => ret (None, Some (Wrap err ("failed to resolve href: " +:+ href)))
    | inl path =>
        r <- notebook_FindByHref notebooks notebook path false ;;
        match snd r with
        | Some err => tell (Log ("findByHref(" +:+ href +:+ ")") err) ;;; ret r
        | None => ret r
        end
    end.

(** [noteMatchingTitle]: the note whose title matches the search terms. *)
Definition noteMatchingTitle (terms : string) (notebook : Notebook)
    : M (option core.MinimalNote * option error) :=
  if String.eqb terms "" then ret (None, None)
  else
    r <- notebook_FindMatching notebooks notebook ("title:(" +:+ terms +:+ ")") ;;
    match snd r with
    | Some err => tell (Log ("findMatching(title: " +:+ terms +:+ ")") err) ;;; ret r
    | None => ret r
    end.

(** [noteForLink]: relative path first; for a wiki link a partial match of
    the href in the note paths next, and a match on the titles last. *)
Definition noteForLink (link : documentLink) (doc : document) (notebook : Notebook)
    : M (option Note * option error) :=
  r <- noteForHref (Href link) doc notebook ;;
  r <- (if isNil (fst r) && isNil (snd r) && IsWikiLink link then
          r <- notebook_FindByHref notebooks notebook (Href link) true ;;
          if isNil (fst r) && isNil (snd r) then
            noteMatchingTitle (Href link) notebook
          else ret r
        else ret r) ;;
  match r with
  | (Some note, None) =>
      let joined_path := filepath_Join (Notebook_Path notebook) (core.Path note) in
      ret (Some {| MinimalNote := note; URI := pathToURI joined_path |}, None)
  | (_, err) => ret (None, err)
  end.

End LinkResolver.

(** ** Diagnostics (server.go, lines 682-752) *)

(** A document is reached through a pointer; [loc] is its address. *)
Definition loc : Type := nat.

(** Where the goroutine of a refresh cycle stands: started and not yet past
    line 704, past it and not yet done, or returned. *)
Inductive phase : Type := Spawned | Computing | Finished.

(** The goroutine of lines 700-751 with the variables its closure
    captures. *)
Record goroutine `{Collaborators} : Type :=
  { g_doc : loc;
    g_notebook : Notebook;
    g_diagConfig : core.LSPDiagnosticConfig;
    g_delay : bool;
    g_phase : phase }.

Definition setPhase `{Collaborators} (p : phase) (g : goroutine) : goroutine :=
  {| g_doc := g_doc g;
     g_notebook := g_notebook g;
     g_diagConfig := g_diagConfig g;
     g_delay := g_delay g;
     g_phase := p |}.

(** The server: the notebook store, the open documents by URI, the
    document objects, the goroutines started so far, and what was logged or
    sent to the client. *)
Record Server `{Collaborators} : Type :=
  { notebooks : NotebookStore;
    documents : gmap string loc;
    heap : gmap loc document;
    goroutines : list goroutine;
    output : list Event }.

Section Diagnostics.

Context `{Collaborators}.

Definition notebookOf (s : Server) (doc : document) : Notebook + error :=
  Open (notebooks s) (docPath doc).

(** [s.documents.Get(uri)]. *)
Definition documents_Get (s : Server) (uri : string) : option document :=
  match documents s !! uri with
  | Some l => heap s !! l
  | None => None
  end.

Definition deadLinkDiagnostic (diagConfig : core.LSPDiagnosticConfig)
    (link : documentLink) : Diagnostic :=
  {| protocol.Diagnostic_Range := Range link;
     protocol.Severity := core.DeadLink diagConfig;
     protocol.Source := "zk";
     protocol.Message := "not found" |}.

Definition missingTitleDiagnostic (diagConfig : core.LSPDiagnosticConfig)
    (link : documentLink) (target : Note) : Diagnostic :=
  {| protocol.Diagnostic_Range := Range link;
     protocol.Severity := core.WikiTitle diagConfig;
     protocol.Source := "zk";
     protocol.Message := core.Title (MinimalNote target) |}.

(** The body of the loop over the links (lines 714-744): the diagnostic
    appended for [link], if any. *)
Definition linkDiagnostic (notebooks : NotebookStore)
    (diagConfig : core.LSPDiagnosticConfig) (doc : document)
    (notebook : Notebook) (link : documentLink) : M (option Diagnostic) :=
  if IsURL (Href link) then ret None
  else
    r <- noteForLink notebooks link doc notebook ;;
    match r with
    | (_, Some err) => logger_Err (Some err) ;;; ret None
    | (None, None) =>
        if core.isNone (core.DeadLink diagConfig) then ret None
        else ret (Some (deadLinkDiagnostic diagConfig link))
    | (Some target, None) =>
        if HasTitle link || core.isNone (core.WikiTitle diagConfig) then ret None
        else ret (Some (missingTitleDiagnostic diagConfig link target))
    end.

(** The loop of lines 713-745, [diagnostics] being the slice built so
    far. *)
Fixpoint diagnosticsOfLinks (notebooks : NotebookStore)
    (diagConfig : core.LSPDiagnosticConfig) (doc : document)
    (notebook : Notebook) (links : list documentLink)
    (diagnostics : list Diagnostic) : M (list Diagnostic) :=
  match links with
  | [] => ret diagnostics
  | link :: links =>
      d <- linkDiagnostic notebooks diagConfig doc notebook link ;;
      diagnosticsOfLinks notebooks diagConfig doc notebook links
        (match d with
         | Some d => diagnostics ++ [d]
         | None => diagnostics
         end)
  end.

(** Lines 706-750: what the goroutine does once it has cleared the
    flag. *)
Definition computeDiagnostics (notebooks : NotebookStore)
    (diagConfig : core.LSPDiagnosticConfig) (doc : document)
    (notebook : Notebook) : M unit :=
  match DocumentLinks doc with
  | inr err => logger_Err (Some err)
  | inl links =>
      diagnostics <- diagnosticsOfLinks notebooks diagConfig doc notebook links [] ;;
      tell (PublishDiagnostics (docURI doc) diagnostics)
  end.

(** [refreshDiagnosticsOfDocument], up to the [go] statement: the caller
    gets the server back with, at most, the flag set and one more
    goroutine. *)
Definition refreshDiagnosticsOfDocument (s : Server) (doc : loc) (delay : bool)
    : Server :=
  match heap s !! doc with
  | None => s
  | Some d =>
      if NeedsRefreshDiagnostics d then s
      else
        match notebookOf s d with
        | inr err =>
            {| notebooks := notebooks s;
               documents := documents s;
               heap := heap s;
               goroutines := goroutines s;
               output := output s ++ [LogErr err] |}
        | inl notebook =>
            let diagConfig := core.LSP_Diagnostics (Notebook_Config notebook) in
            if core.isNone (core.WikiTitle diagConfig)
               && core.isNone (core.DeadLink diagConfig) then s
            else
              {| notebooks := notebooks s;
                 documents := documents s;
                 heap := <[doc := setNeedsRefreshDiagnostics true d]> (heap s);
                 goroutines :=
                   goroutines s ++
                     [ {| g_doc := doc;
                          g_notebook := notebook;
                          g_diagConfig := diagConfig;
                          g_delay := delay;
                          g_phase := Spawned |} ];
                 output := output s |}
        end
  end.

(** Lines 701-704: after the optional sleep the goroutine clears the
    flag. *)
Definition goroutine_wake (s : Server) (i : nat) : option Server :=
  match goroutines s !! i with
  | Some g =>
      match g_phase g, heap s !! g_doc g with
      | Spawned, Some d =>
          Some {| notebooks := notebooks s;
                  documents := documents s;
                  heap := <[g_doc g := setNeedsRefreshDiagnostics false d]> (heap s);
                  goroutines := <[i := setPhase Computing g]> (goroutines s);
                  output := output s |}
      | _, _ => None
      end
  | None => None
  end.

(** Lines 706-750: the goroutine reads the links of the document as it
    is now, resolves them and publishes. *)
Definition goroutine_compute (s : Server) (i : nat) : option Server :=
  match goroutines s !! i with
  | Some g =>
      match g_phase g, heap s !! g_doc g with
      | Computing, Some d =>
          Some {| notebooks := notebooks s;
                  documents := documents s;
                  heap := heap s;
                  goroutines := <[i := setPhase Finished g]> (goroutines s);
                  output :=
                    output s ++
                      trace (computeDiagnostics (notebooks s) (g_diagConfig g) d
                               (g_notebook g)) |}
      | _, _ => None
      end
  | None => None
  end.

(** What can happen next: a handler asks for a refresh of a document
    (with or without the delay), the client edits or opens a document, or
    a goroutine runs its next part: it wakes and clears the flag, or it
    does the rest and finishes.  Handlers run one at a time, to the [go]
    statement; the two parts of a goroutine are taken as atomic, the flag
    being the only variable that a handler and a goroutine both write. *)
Inductive label : Type :=
| Refresh (doc : loc) (delay : bool)
| Edit (doc : loc) (text : string)
| OpenDocument (doc : loc) (d : document)
| Wake (i : nat)
| Finish (i : nat).

Definition step (s : Server) (l : label) : option Server :=
  match l with
  | Refresh doc delay =>
      match heap s !! doc with
      | Some _ => Some (refreshDiagnosticsOfDocument s doc delay)
      | None => None
      end
  | Edit doc text =>
      match heap s !! doc with
      | Some d =>
          Some {| notebooks := notebooks s;
                  documents := documents s;
                  heap := <[doc := setContent text d]> (heap s);
                  goroutines := goroutines s;
                  output := output s |}
      | None => None
      end
  | OpenDocument doc d =>
      match heap s !! doc with
      | None =>
          if NeedsRefreshDiagnostics d then None
          else
            Some {| notebooks := notebooks s;
                    documents := <[docURI d := doc]> (documents s);
                    heap := <[doc := d]> (heap s);
                    goroutines := goroutines s;
                    output := output s |}
      | Some _ => None
      end
  | Wake i => goroutine_wake s i
  | Finish i => goroutine_compute s i
  end.

Fixpoint run (s : Server) (ls : list label) : option Server :=
  match ls with
  | [] => Some s
  | l :: ls =>
      match step s l with
      | Some s' => run s' ls
      | None => None
      end
  end.

(** A server that has started no refresh cycle yet. *)
Definition initial (s : Server) : Prop :=
  goroutines s = [] /\
  forall l d, heap s !! l = Some d -> NeedsRefreshDiagnostics d = false.

Definition reachable (s : Server) : Prop :=
  exists s0 ls, initial s0 /\ run s0 ls = Some s.

End Diagnostics.

(** ** Go strings *)

(** [len(s)]. *)
Definition len (s : string) : Z := Z.of_nat (String.length s).

(** [s[lo:hi]]; [None] is the run-time panic "slice bounds out of range". *)
Definition slice (s : string) (lo hi : Z) : option string :=
  if (0 <=? lo) && (lo <=? hi) && (hi <=? len s) then
    Some (String.substring (Z.to_nat lo) (Z.to_nat (hi - lo)) s)
  else None.

(** [strings.Contains(s, substr)]. *)
Fixpoint strings_Contains (s substr : string) : bool :=
  String.prefix substr s ||
  match s with
  | EmptyString => false
  | String _ s' => strings_Contains s' substr
  end.

(** [strings.Index(s, substr)]: the offset of the first occurrence, or -1. *)
Fixpoint strings_Index (s substr : string) : Z :=
  if String.prefix substr s then 0
  else
    match s with
    | EmptyString => -1
    | String _ s' =>
        let i := strings_Index s' substr in
        if i <? 0 then -1 else i + 1
    end.

(** [strings.Count(s, sep)] for a separator [sep] of one byte. *)
Fixpoint strings_Count (s : string) (sep : ascii) : Z :=
  match s with
  | EmptyString => 0
  | String c s' => (if Ascii.eqb c sep then 1 else 0) + strings_Count s' sep
  end.

(** [strings.ReplaceAll(s, old, new)] for an [old] of one byte. *)
Fixpoint strings_ReplaceAll (s : string) (old : ascii) (new : string) : string :=
  match s with
  | EmptyString => EmptyString
  | String c s' =>
      (if Ascii.eqb c old then new else String c EmptyString)
        +:+ strings_ReplaceAll s' old new
  end.

Definition newline : ascii := ascii_of_nat 10.

Definition space : ascii := ascii_of_nat 32.

(** ** Completion (server.go, lines 179-214 and 754-938) *)

Record CompletionParams : Type :=
  { TextDocument_URI : string; Position : protocol.Position }.

Section Completion.

Context `{Collaborators}.

(** [rangeFromPosition]: the two ends are [pos] moved along its line by
    the two offsets, in [uint32] arithmetic. *)
Definition offsetPos (pos : protocol.Position) (offset : Z) : protocol.Position :=
  if offset <? 0 then
    {| protocol.Line := protocol.Line pos;
       protocol.Character :=
         protocol.uint32_wrap
           (protocol.Character pos - protocol.uint32_wrap (- offset)) |}
  else
    {| protocol.Line := protocol.Line pos;
       protocol.Character :=
         protocol.uint32_wrap
           (protocol.Character pos + protocol.uint32_wrap offset) |}.

Definition rangeFromPosition (pos : protocol.Position) (startOffset endOffset : Z)
    : protocol.Range :=
  {| protocol.Start := offsetPos pos startOffset;
     protocol.End := offsetPos pos endOffset |}.

Definition newLinkFormatter (doc : document) (notebook : Notebook)
    (params : CompletionParams) : LinkFormatter + error :=
  if String.eqb (LookBehind doc (Position params) 3) "]((" then
    NewMarkdownLinkFormatter (core.Format_Markdown (Notebook_Config notebook)) true
  else NewLinkFormatter notebook.

Definition newTextEditForLink (notebook : Notebook) (note : core.MinimalNote)
    (doc : document) (pos : protocol.Position) (linkFormatter : LinkFormatter)
    : protocol.TextEdit + error :=
  let currentDir := filepath_Dir (docPath doc) in
  match NewLinkFormatterContext note (Notebook_Path notebook) currentDir with
  | inr err => inr err
  | inl context =>
      match linkFormatter context with
      | inr err => inr err
      | inl link =>
          let suffix := LookForward doc pos 2 in
          let endOffset :=
            if String.eqb suffix "]]" || String.eqb suffix "))" then 2 else 0 in
          inl {| protocol.NewText := link;
                 protocol.TextEdit_Range := rangeFromPosition pos 0 endOffset |}
      end
  end.

Definition newCompletionItem (notebook : Notebook) (note : core.MinimalNote)
    (doc : document) (pos : protocol.Position) (linkFormatter : LinkFormatter)
    (templates : completionTemplates Template) : protocol.CompletionItem + error :=
  let data := filepath_Join (Notebook_Path notebook) (core.Path note) in
  match newCompletionItemRenderContext note (Notebook_Path notebook) (docPath doc) with
  | inr err => inr err
  | inl templateContext =>
      match
        match Label templates with
        | Some t => Render t templateContext
        | None => inl (core.Title note)
        end
      with
      | inr err => inr err
      | inl label =>
          let label := if String.eqb label "" then core.Path note else label in
          match
            match FilterText templates with
            | Some t =>
                match Render t templateContext with
                | inr err => inr err
                | inl filterText => inl (Some filterText)
                end
            | None => inl None
            end
          with
          | inr err => inr err
          | inl filterText =>
              let filterText :=
                match filterText with
                | Some f =>
                    if String.eqb f "" then Some (label +:+ " " +:+ core.Path note)
                    else Some f
                | None => Some (label +:+ " " +:+ core.Path note)
                end in
              match
                match Detail templates with
                | Some t =>
                    match Render t templateContext with
                    | inr err => inr err
                    | inl detail => inl (Some detail)
                    end
                | None => inl None
                end
              with
              | inr err => inr err
              | inl detail =>
                  match newTextEditForLink notebook note doc pos linkFormatter with
                  | inr err =>
                      inr (Wrap err ("failed to build TextEdit for note at "
                                     +:+ core.Path note))
                  | inl textEdit =>
                      inl {| protocol.Label := label;
                             protocol.Data := data;
                             protocol.FilterText := filterText;
                             protocol.Detail := detail;
                             protocol.InsertText := None;
                             protocol.TextEdit_ := Some textEdit;
                             protocol.AdditionalTextEdits :=
                               [ {| protocol.NewText := "";
                                    protocol.TextEdit_Range :=
                                      rangeFromPosition pos (-2) 0 |} ] |}
                  end
              end
          end
      end
  end.

(** The loop of lines 805-813: an item per note, a log line for a note
    whose item could not be built. *)
Fixpoint completionItems (notebook : Notebook) (doc : document)
    (pos : protocol.Position) (linkFormatter : LinkFormatter)
    (templates : completionTemplates Template) (notes : list core.MinimalNote)
    (items : list protocol.CompletionItem) : M (list protocol.CompletionItem) :=
  match notes with
  | [] => ret items
  | note :: notes =>
      match newCompletionItem notebook note doc pos linkFormatter templates with
      | inr err =>
          logger_Err (Some err) ;;;
          completionItems notebook doc pos linkFormatter templates notes items
      | inl item =>
          completionItems notebook doc pos linkFormatter templates notes
            (items ++ [item])
      end
  end.

Definition buildLinkCompletionList (notebooks : NotebookStore) (doc : document)
    (notebook : Notebook) (params : CompletionParams)
    : M (option (list protocol.CompletionItem) * option error) :=
  match newLinkFormatter doc notebook params with
  | inr err => ret (None, Some err)
  | inl linkFormatter =>
      match newCompletionTemplates
              (core.LSP_Completion_Note (Notebook_Config notebook)) with
      | inr err => ret (None, Some err)
      | inl templates =>
          tell (QFindMinimalNotes notebook) ;;;
          match FindMinimalNotes notebooks notebook with
          | inr err => ret (None, Some err)
          | inl notes =>
              items <- completionItems notebook doc (Position params)
                         linkFormatter templates notes [] ;;
              ret (Some items, None)
          end
      end
  end.

Definition buildInsertForTag (name : string) (triggerChar : string)
    (config : core.Config) : string :=
  if String.eqb triggerChar ":" then name +:+ ":"
  else if String.eqb triggerChar "#" then
    if strings_Contains name " " then
      if core.MultiwordTags (core.Format_Markdown config) then name +:+ "#"
      else strings_ReplaceAll name space "\ "
    else name
  else name.

Definition buildTagCompletionList (notebooks : NotebookStore) (notebook : Notebook)
    (triggerChar : string)
    : M (option (list protocol.CompletionItem) * option error) :=
  tell (QFindCollections notebook) ;;;
  match FindCollections_Tag notebooks notebook with
  | inr err => ret (None, Some err)
  | inl tags =>
      ret (Some
             (map (fun tag =>
                     {| protocol.Label := core.Name tag;
                        protocol.Data := "";
                        protocol.FilterText := None;
                        protocol.Detail :=
                          Some (Sprint_int (core.NoteCount tag) +:+ " "
                                +:+ Pluralize "note" (core.NoteCount tag));
                        protocol.InsertText :=
                          Some (buildInsertForTag (core.Name tag) triggerChar
                                  (Notebook_Config notebook));
                        protocol.TextEdit_ := None;
                        protocol.AdditionalTextEdits := [] |})
                  tags),
           None)
  end.

(** [handler.TextDocumentCompletion]. *)
Definition TextDocumentCompletion (s : Server) (params : CompletionParams)
    : M (option (list protocol.CompletionItem) * option error) :=
  match documents_Get s (TextDocument_URI params) with
  | None => ret (None, None)
  | Some doc =>
      match notebookOf s doc with
      | inr err => ret (None, Some err)
      | inl notebook =>
          if String.eqb (LookBehind doc (Position params) 3) "]((" then
            buildLinkCompletionList (notebooks s) doc notebook params
          else if String.eqb (LookBehind doc (Position params) 2) "[[" then
            buildLinkCompletionList (notebooks s) doc notebook params
          else if String.eqb (LookBehind doc (Position params) 1) "#" then
            if core.Hashtags (core.Format_Markdown (Notebook_Config notebook)) then
              buildTagCompletionList (notebooks s) notebook "#"
            else ret (None, None)
          else if String.eqb (LookBehind doc (Position params) 1) ":" then
            if core.ColonTags (core.Format_Markdown (Notebook_Config notebook)) then
              buildTagCompletionList (notebooks s) notebook ":"
            else ret (None, None)
          else ret (None, None)
      end
  end.

End Completion.

(** ** The command [zk.new] (server.go, lines 507-616) *)

(** An element of [args []interface{}]. *)
Inductive arg `{Collaborators} : Type :=
| ArgString (s : string)
| ArgMap (m : JSONMap)
| ArgOther.

(** [opt.NewNotEmptyString]. *)
Definition NewNotEmptyString (s : string) : option string :=
  if String.eqb s "" then None else Some s.

(** The zero value of [cmdNewOpts]. *)
Definition cmdNewOpts_zero : cmdNewOpts :=
  {| Title := ""; Content := ""; Dir := ""; Group := ""; Template_ := "";
     Extra := []; Date := ""; Edit_ := false; InsertLinkAtLocation := None |}.

Section Commands.

Context `{Collaborators}.

Definition setNotebooks (notebooks' : NotebookStore) (s : Server) : Server :=
  {| notebooks := notebooks';
     documents := documents s;
     heap := heap s;
     goroutines := goroutines s;
     output := output s |}.

(** Lines 521-540: the working directory and the options. *)
Definition decodeArgs (args : list arg) : (string * cmdNewOpts) + error :=
  match args with
  | [] => inr (ErrMsg "zk.index expects a notebook path as first argument")
  | ArgString wd :: rest =>
      match rest with
      | [] => inl (wd, cmdNewOpts_zero)
      | ArgMap m :: _ =>
          match unmarshalJSON m with
          | inl opts => inl (wd, opts)
          | inr err => inr (Wrap err "failed to parse zk.new args")
          end
      | _ :: _ =>
          inr (ErrMsg "zk.new expects a dictionary of options as second argument")
      end
  | _ :: _ =>
      inr (ErrMsg "zk.index expects a notebook path as first argument")
  end.

(** Lines 552-560: the [core.NewNoteOpts] of the call. *)
Definition newNoteOpts (opts : cmdNewOpts) (date : Z) : core.NewNoteOpts :=
  {| core.NewNote_Title := NewNotEmptyString (Title opts);
     core.NewNote_Content := Content opts;
     core.NewNote_Directory := NewNotEmptyString (Dir opts);
     core.NewNote_Group := NewNotEmptyString (Group opts);
     core.NewNote_Template := NewNotEmptyString (Template_ opts);
     core.NewNote_Extra := Extra opts;
     core.NewNote_Date := date |}.

(** Lines 552-575: create the note, or find the one that exists under the
    name. *)
Definition newOrExistingNote (notebooks : NotebookStore) (notebook : Notebook)
    (opts : cmdNewOpts) (date : Z)
    : M ((core.Note + error) * NotebookStore) :=
  let '((note, err), notebooks') :=
    NewNote notebooks notebook (newNoteOpts opts date) in
  r <- match err with
       | Some err =>
           match errors_As_NoteExists err with
           | None => ret (inr err)
           | Some name =>
               tell (QFindNote notebook [name]) ;;;
               match FindNote_IncludePaths notebooks' notebook [name] with
               | (_, Some err) => ret (inr err)
               | (note, None) => ret (inl note)
               end
           end
       | None => ret (inl note)
       end ;;
  match r with
  | inr err => ret (inr err, notebooks')
  | inl None => ret (inr (ErrMsg "zk.new could not generate a new note"), notebooks')
  | inl (Some note) => ret (inl note, notebooks')
  end.

(** Lines 577-615: the link to insert, the document to show, the path to
    return. *)
Definition finishCommandNew (s : Server) (notebook : Notebook)
    (opts : cmdNewOpts) (note : core.Note) : M (string + error) :=
  r <- match InsertLinkAtLocation opts with
       | None => ret (inl tt)
       | Some location =>
           match documents_Get s (protocol.URI location) with
           | None => ret (inr (ErrMsg ("can't insert link in "
                                       +:+ protocol.URI location)))
           | Some doc =>
               match NewLinkFormatter notebook with
               | inr err => ret (inr err)
               | inl linkFormatter =>
                   let currentDir := filepath_Dir (docPath doc) in
                   match NewLinkFormatterContext (AsMinimalNote note)
                           (Notebook_Path notebook) currentDir with
                   | inr err => ret (inr err)
                   | inl linkFormatterContext =>
                       match linkFormatter linkFormatterContext with
                       | inr err => ret (inr err)
                       | inl link =>
                           tell (ApplyEdit (protocol.URI location)
                                   {| protocol.TextEdit_Range := protocol.Range_ location;
                                      protocol.NewText := link |}) ;;;
                           ret (inl tt)
                       end
                   end
               end
           end
       end ;;
  match r with
  | inr err => ret (inr err)
  | inl _ =>
      let absPath := filepath_Join (Notebook_Path notebook) (core.Note_Path note) in
      (if Edit_ opts then tell (ShowDocument (pathToURI absPath) true) else ret tt) ;;;
      ret (inl absPath)
  end.

(** [executeCommandNew]: the path of the note, or the error, and the
    server with the notebook store as the command leaves it. *)
Definition executeCommandNew (s : Server) (args : list arg)
    : M ((string + error) * Server) :=
  match decodeArgs args with
  | inr err => ret (inr err, s)
  | inl (wd, opts) =>
      match Open (notebooks s) wd with
      | inr err => ret (inr err, s)
      | inl notebook =>
          match TimeFromNatural (Date opts) with
          | inr err =>
              ret (inr (Wrap err (Date opts +:+ ", failed to parse the `date` option")), s)
          | inl date =>
              r <- newOrExistingNote (notebooks s) notebook opts date ;;
              let s' := setNotebooks (snd r) s in
              match fst r with
              | inr err => ret (inr err, s')
              | inl note =>
                  p <- finishCommandNew s' notebook opts note ;;
                  ret (p, s')
              end
          end
      end
  end.

End Commands.

(** ** References (server.go, lines 397-467) *)

Record ReferenceParams : Type :=
  { Reference_URI : string; Reference_Position : protocol.Position }.

(** What a call does: it returns, or the run time stops it. *)
Inductive outcome (A : Type) : Type :=
| Returns (a : A)
| Panics (msg : string).

Arguments Returns {_} _.
Arguments Panics {_} _.

Section References.

Context `{Collaborators}.

(** The line of [RawContent] on which [needle] first occurs, line 0 when
    it does not occur (lines 442-449, after the slice of the path). *)
Definition referenceLine (RawContent needle : string) : outcome Z :=
  let pos := strings_Index RawContent needle in
  if pos <? 0 then Returns 0
  else
    match slice RawContent 0 pos with
    | None => Panics "slice bounds out of range"
    | Some before => Returns (protocol.uint32_wrap (strings_Count before newline))
    end.

(** The loop of lines 441-464, [locations] being the slice built so far. *)
Fixpoint referenceLocations (notebook : Notebook) (target : Note)
    (notes : list core.Note) (locations : list protocol.Location)
    : outcome (list protocol.Location) :=
  match notes with
  | [] => Returns locations
  | note :: notes =>
      let path := core.Path (MinimalNote target) in
      match slice path 0 (len path - 3) with
      | None => Panics "slice bounds out of range"
      | Some needle =>
          match referenceLine (core.RawContent note) needle with
          | Panics msg => Panics msg
          | Returns line =>
              let position :=
                {| protocol.Line := line; protocol.Character := 0 |} in
              referenceLocations notebook target notes
                (locations ++
                   [ {| protocol.URI :=
                          pathToURI (filepath_Join (Notebook_Path notebook)
                                       (core.Note_Path note));
                        protocol.Range_ :=
                          {| protocol.Start := position;
                             protocol.End := position |} |} ])
          end
      end
  end.

(** [handler.TextDocumentReferences]. *)
Definition TextDocumentReferences (s : Server) (params : ReferenceParams)
    : M (outcome (list protocol.Location * option error)) :=
  match documents_Get s (Reference_URI params) with
  | None => ret (Returns ([], None))
  | Some doc =>
      match notebookOf s doc with
      | inr err => ret (Returns ([], Some err))
      | inl notebook =>
          match
            match DocumentLinkAt doc (Reference_Position params) with
            | inr err => inr err
            | inl (Some link) => inl link
            | inl None =>
                match RelPath notebook (docPath doc) with
                | inr err => inr err
                | inl href =>
                    inl {| Href := href;
                           Range :=
                             {| protocol.Start :=
                                  {| protocol.Line := 0; protocol.Character := 0 |};
                                protocol.End :=
                                  {| protocol.Line := 0; protocol.Character := 0 |} |};
                           HasTitle := false;
                           IsWikiLink := false |}
                end
            end
          with
          | inr err => ret (Returns ([], Some err))
          | inl link =>
              r <- noteForLink (notebooks s) link doc notebook ;;
              match r with
              | (Some target, None) =>
                  match RelPath notebook (core.Path (MinimalNote target)) with
                  | inr err => ret (Returns ([], Some err))
                  | inl p =>
                      tell (QFindNotes notebook [p]) ;;;
                      match FindNotes_LinkTo (notebooks s) notebook [p] with
                      | inr err => ret (Returns ([], Some err))
                      | inl notes =>
                          match referenceLocations notebook target notes [] with
                          | Panics msg => ret (Panics msg)
                          | Returns locations => ret (Returns (locations, None))
                          end
                      end
                  end
              | (_, err) => ret (Returns ([], err))
              end
          end
      end
  end.

End References.

(** ** A small notebook to run the server on

    One notebook at [/nb], its notes in a list.  The parts of the
    repository that server.go calls are modelled from the spec; the Go
    library functions are cut down to absolute paths with single
    slashes. *)

Module Toy.

Record store : Type :=
  { config : core.Config;
    notes : list core.Note;
    (* the error every index query reports, if the index is out of order *)
    indexError : option error }.

Definition root : string := "/nb".

(** [strutil.IsURL], for the two schemes of the examples. *)
Definition isURL (s : string) : bool :=
  String.prefix "http://" s || String.prefix "https://" s.

Definition join (a b : string) : string :=
  if String.eqb a "" then b else a +:+ "/" +:+ b.

(** The part of [s] before its last slash, if it has one. *)
Fixpoint beforeLastSlash (s : string) : option string :=
  match s with
  | EmptyString => None
  | String c s' =>
      match beforeLastSlash s' with
      | Some d => Some (String c d)
      | None => if Ascii.eqb c "/"%char then Some EmptyString else None
      end
  end.

Definition dir (p : string) : string :=
  match beforeLastSlash p with
  | Some EmptyString => "/"
  | Some d => d
  | None => "."
  end.

Fixpoint dropPrefix (p s : string) : option string :=
  match p, s with
  | EmptyString, _ => Some s
  | String a p', String b s' => if Ascii.eqb a b then dropPrefix p' s' else None
  | String _ _, EmptyString => None
  end.

Definition rel (base p : string) : string + error :=
  match dropPrefix (base +:+ "/") p with
  | Some r => inl r
  | None => inr (ErrMsg "Rel: can't make path relative")
  end.

Definition minimal (n : core.Note) : core.MinimalNote :=
  {| core.ID := core.Note_ID n;
     core.Path := core.Note_Path n;
     core.Title := core.Note_Title n |}.

(** Modelled from the spec: [findByHref(path, partial)] of the index,
    absent from the source: the note at exactly that path, or, when
    [partial], the first note whose path contains it. *)
Definition findByHref (st : store) (href : string) (partial : bool)
    : option core.MinimalNote * option error :=
  match indexError st with
  | Some err => (None, Some err)
  | None =>
      (minimal <$>
         List.find (fun n =>
                      if partial then strings_Contains (core.Note_Path n) href
                      else String.eqb (core.Note_Path n) href)
                   (notes st),
       None)
  end.

(** Modelled from the spec: [findMatching(query)] of the index, absent
    from the source: the first note whose title is the terms of the
    query. *)
Definition findMatching (st : store) (query : string)
    : option core.MinimalNote * option error :=
  match indexError st with
  | Some err => (None, Some err)
  | None =>
      (minimal <$>
         List.find (fun n =>
                      String.eqb ("title:(" +:+ core.Note_Title n +:+ ")") query)
                   (notes st),
       None)
  end.

Definition findNote (st : store) (paths : list string)
    : option core.Note * option error :=
  match indexError st with
  | Some err => (None, Some err)
  | None =>
      (List.find (fun n => existsb (String.eqb (core.Note_Path n)) paths) (notes st),
       None)
  end.

(** The name a new note gets: its directory and its title. *)
Definition resolveName (o : core.NewNoteOpts) : string :=
  join (default "" (core.NewNote_Directory o))
       (default "untitled" (core.NewNote_Title o) +:+ ".md").

(** Modelled from the spec: note creation, absent from the source: it
    fails with [ErrNoteExists] when a note with the resolved name exists,
    and adds the note otherwise. *)
Definition newNote (st : store) (o : core.NewNoteOpts)
    : (option core.Note * option error) * store :=
  let name := resolveName o in
  if existsb (fun n => String.eqb (core.Note_Path n) name) (notes st) then
    ((None, Some (Wrap (ErrNoteExists name) "new note")), st)
  else
    let note :=
      {| core.Note_ID := Z.of_nat (List.length (notes st)) + 1;
         core.Note_Path := name;
         core.Note_Title := default "untitled" (core.NewNote_Title o);
         core.RawContent := core.NewNote_Content o |} in
    ((Some note, None),
     {| config := config st; notes := notes st ++ [note];
        indexError := indexError st |}).

(** The lines of a text. *)
Fixpoint lines (s : string) (line : string) : list string :=
  match s with
  | EmptyString => [line]
  | String c s' =>
      if Ascii.eqb c newline then line :: lines s' EmptyString
      else lines s' (line +:+ String c EmptyString)
  end.

(** Modelled from the spec: [lookBehind(doc, pos, n)] of document.go,
    absent from the source: the [n] characters before the position,
    clipped at the start of its line. *)
Definition lookBehind (doc : document) (pos : protocol.Position) (n : Z) : string :=
  match lines (docContent doc) EmptyString !! Z.to_nat (protocol.Line pos) with
  | None => ""
  | Some line =>
      let charIdx := protocol.Character pos in
      if charIdx <? n then String.substring 0 (Z.to_nat charIdx) line
      else String.substring (Z.to_nat (charIdx - n)) (Z.to_nat n) line
  end.

(** Modelled from the spec: [lookForward(doc, pos, n)] of document.go,
    absent from the source: the [n] characters after the position,
    clipped at the end of its line. *)
Definition lookForward (doc : document) (pos : protocol.Position) (n : Z) : string :=
  match lines (docContent doc) EmptyString !! Z.to_nat (protocol.Line pos) with
  | None => ""
  | Some line =>
      let charIdx := protocol.Character pos in
      if len line <=? charIdx + n then
        String.substring (Z.to_nat charIdx) (String.length line - Z.to_nat charIdx) line
      else String.substring (Z.to_nat charIdx) (Z.to_nat n) line
  end.

(** The collaborators of the examples.  The links of a document and the
    notes that link to a path are given by the example that needs
    them. *)
Definition collaborators
    (documentLinks : document -> list documentLink + error)
    (linkingNotes : list string -> list core.Note) : Collaborators :=
  {| IsURL := isURL;
     Pluralize := fun word n => if n =? 1 then word else word +:+ "s";
     Sprint_int := fun n => NilZero.string_of_int (Z.to_int n);
     filepath_Join := join;
     filepath_Clean := fun p => p;
     filepath_Dir := dir;
     filepath_Rel := rel;
     pathToURI := fun p => "file://" +:+ p;
     NotebookStore := store;
     Notebook := core.Config;
     Notebook_Path := fun _ => root;
     Notebook_Config := fun c => c;
     Open := fun st wd =>
       if String.prefix root wd then inl (config st)
       else inr (ErrMsg "no notebook found");
     FindByHref := fun st _ => findByHref st;
     FindMatching := fun st _ => findMatching st;
     FindNotes_LinkTo := fun st _ paths =>
       match indexError st with
       | Some err => inr err
       | None => inl (linkingNotes paths)
       end;
     FindMinimalNotes := fun st _ =>
       match indexError st with
       | Some err => inr err
       | None => inl (minimal <$> notes st)
       end;
     FindNote_IncludePaths := fun st _ => findNote st;
     FindCollections_Tag := fun st _ => inl [];
     NewNote := fun st _ => newNote st;
     RelPath := fun _ p =>
       match rel root p with
       | inl r => inl r
       | inr _ => inl p
       end;
     NewLinkFormatter := fun _ => inl (fun '(n, _, _) => inl ("[[" +:+ core.Path n +:+ "]]"));
     NewMarkdownLinkFormatter := fun _ _ =>
       inl (fun '(n, _, _) => inl ("(" +:+ core.Path n +:+ ")"));
     NewLinkFormatterContext := fun n base dir => inl (n, base, dir);
     AsMinimalNote := minimal;
     TimeFromNatural := fun _ => inl 0;
     JSONMap := cmdNewOpts;
     unmarshalJSON := fun m => inl m;
     RenderContext := core.MinimalNote;
     Template := string;
     newCompletionTemplates := fun _ =>
       inl {| Label := None; FilterText := None; Detail := None |};
     Render := fun t n => inl (t +:+ core.Title n);
     newCompletionItemRenderContext := fun n _ _ => inl n;
     DocumentLinks := documentLinks;
     DocumentLinkAt := fun doc _ =>
       match documentLinks doc with
       | inl links => inl (head links)
       | inr err => inr err
       end;
     LookBehind := lookBehind;
     LookForward := lookForward;
     ContentAtRange := fun _ _ => "" |}.

End Toy.

(** ** The examples: a notebook with two notes *)

Definition exampleConfig (wikiTitle deadLink : core.LSPDiagnosticSeverity)
    : core.Config :=
  {| core.Format_Markdown :=
       {| core.Hashtags := true; core.ColonTags := false;
          core.MultiwordTags := false |};
     core.LSP_Diagnostics :=
       {| core.WikiTitle := wikiTitle; core.DeadLink := deadLink |};
     core.LSP_Completion_Note :=
       {| core.LabelSrc := None; core.FilterTextSrc := None;
          core.DetailSrc := None |} |}.

Definition exampleNotes : list core.Note :=
  [ {| core.Note_ID := 1; core.Note_Path := "notes/b.md";
       core.Note_Title := "Some Title Words"; core.RawContent := "# b" |};
    {| core.Note_ID := 2; core.Note_Path := "bookmarks/example.md";
       core.Note_Title := "https://example.com";
       core.RawContent := "# example" |} ].

Definition exampleStore (wikiTitle deadLink : core.LSPDiagnosticSeverity)
    (indexError : option error) : Toy.store :=
  {| Toy.config := exampleConfig wikiTitle deadLink;
     Toy.notes := exampleNotes;
     Toy.indexError := indexError |}.

Definition exampleDocument (text : string) : document :=
  {| docURI := "file:///nb/notes/a.md";
     docPath := "/nb/notes/a.md";
     docContent := text;
     NeedsRefreshDiagnostics := false |}.

Definition exampleRange : protocol.Range :=
  {| protocol.Start := {| protocol.Line := 0; protocol.Character := 0 |};
     protocol.End := {| protocol.Line := 0; protocol.Character := 8 |} |}.

Definition exampleLink (href : string) (hasTitle isWikiLink : bool) : documentLink :=
  {| Href := href; Range := exampleRange; HasTitle := hasTitle;
     IsWikiLink := isWikiLink |}.

(** The collaborators of the examples: the text [[missing]] is a wiki link,
    the text [b](b.md) a link with a title, any other text has no link, and
    the text "\0" stands for one whose links cannot be read. *)
Definition toy : Collaborators :=
  Toy.collaborators
    (fun doc =>
       if String.eqb (docContent doc) "[[missing]]" then
         inl [exampleLink "missing" false true]
       else if String.eqb (docContent doc) "[b](b.md)" then
         inl [exampleLink "b.md" true false]
       else if String.eqb (docContent doc) "\0" then
         inr (ErrMsg "unreadable document")
       else inl [])
    (fun paths =>
       if existsb (String.eqb "notes/b.md") paths then
         [ {| core.Note_ID := 3; core.Note_Path := "notes/c.md";
              core.Note_Title := "c";
              core.RawContent := "first" +:+ String newline "see [[notes/b]]" |} ]
       else []).

(** ** Counting refresh cycles *)

Section Cycles.

Context `{Collaborators}.


(** A cycle is active on [doc] from the [go] statement until its goroutine
    returns. *)
Definition isActive (doc : loc) (g : goroutine) : bool :=
  Nat.eqb (g_doc g) doc &&
  match g_phase g with
  | Finished => false
  | _ => true
  end.

Fixpoint count (p : goroutine -> bool) (gs : list goroutine) : nat :=
  match gs with
  | [] => 0%nat
  | g :: gs => ((if p g then 1 else 0) + count p gs)%nat
  end.


Definition activeCycles (s : Server) (doc : loc) : nat :=
  count (isActive doc) (goroutines s).

(** The flag of the document at [doc], [false] when there is none. *)
Definition flagOf (s : Server) (doc : loc) : bool :=
  match heap s !! doc with
  | Some d => NeedsRefreshDiagnostics d
  | None => false
  end.


(** The document of a goroutine stays in the heap. *)
Definition documents_alive (s : Server) : Prop :=
  forall i g, goroutines s !! i = Some g -> is_Some (heap s !! g_doc g).

End Cycles.

(** A server with one open document and nothing started. *)
Definition exampleServer (text : string) (wikiTitle deadLink : core.LSPDiagnosticSeverity)
    (indexError : option error) : @Server toy :=
  {| notebooks := exampleStore wikiTitle deadLink indexError : @NotebookStore toy;
     documents := {[ "file:///nb/notes/a.md" := 0%nat ]};
     heap := {[ 0%nat := exampleDocument text ]};
     goroutines := [];
     output := [] |}.

Definition exampleNotebook : @Notebook toy :=
  exampleConfig core.LSPDiagnosticHint core.LSPDiagnosticError.

(** The goroutine of the cycle started on the document of [exampleServer]
    without delay. *)
Definition exampleGoroutine (p : phase) : @goroutine toy :=
  {| g_doc := 0%nat;
     g_notebook := exampleNotebook;
     g_diagConfig := core.LSP_Diagnostics exampleNotebook;
     g_delay := false;
     g_phase := p |}.

(** The server once that goroutine has cleared the flag. *)
Definition exampleComputing (text : string) : @Server toy :=
  let s0 := exampleServer text core.LSPDiagnosticHint core.LSPDiagnosticError None in
  default s0 (@run toy s0 [Refresh 0%nat false; Wake 0%nat]).

(** The arguments of [zk.new] for a note [title] in the directory
    [notes]. *)
Definition exampleArgs (title : string) : list (@arg toy) :=
  [ @ArgString toy "/nb";
    @ArgMap toy
      {| Title := title; Content := ""; Dir := "notes"; Group := "";
         Template_ := ""; Extra := []; Date := ""; Edit_ := false;
         InsertLinkAtLocation := None |} ].

(** ** The other handlers of server.go

    The handlers below call a few more functions that server.go does not
    contain; they are gathered in the class [Platform]. *)

Class Platform `{Collaborators} : Type :=
  { (* uri.go, core.FileStorage, io/ioutil *)
    uriToPath : string -> string + error;
    fs_Canonical : string -> string;
    ioutil_ReadFile : string -> string + error;
    (* encoding/json, fmt, strings *)
    JSONValue : Type;
    JSONMap_lookup : JSONMap -> string -> option JSONValue;
    marshalJSON : cmdNewOpts -> JSONMap + error;
    fmt_Sprint : JSONValue -> string;
    strings_ToLower : string -> string;
    (* core.Notebook *)
    NoteIndexingStats : Type;
    Index : NotebookStore -> Notebook -> bool ->
            (NoteIndexingStats * option error) * NotebookStore;
    (* document.go *)
    ContentChange : Type;
    ApplyChanges : string -> list ContentChange -> string }.

(** [protocol.DocumentLink], [protocol.Command] and [protocol.CodeAction]:
    the fields the server fills. *)
Record DocumentLink : Type :=
  { DocumentLink_Range : protocol.Range; Target : string }.

Record Command `{Collaborators} : Type :=
  { Command_Command : string; Arguments : list arg }.

Record CodeAction `{Collaborators} : Type :=
  { CodeAction_Title : string;
    CodeAction_Kind : option string;
    CodeAction_Command : option Command }.


Definition cmdNew : string := "zk.new".

Definition isLogErr `{Collaborators} (e : Event) : bool :=
  match e with
  | LogErr _ => true
  | _ => false
  end.

Definition isApplyEdit `{Collaborators} (e : Event) : bool :=
  match e with
  | ApplyEdit _ _ => true
  | _ => false
  end.

(** The number of index queries in a trace. *)
Definition indexQueries `{Collaborators} (t : list Event) : nat :=
  length (List.filter isIndexQuery t).

(** A column or a line that a [uint32] can hold. *)
Definition uint32_ok (z : Z) : Prop := 0 <= z < 2 ^ 32.

(** Some space of [s] does not follow a backslash; [escaped] tells whether
    the byte before [s] is one. *)
Fixpoint bareSpace (escaped : bool) (s : string) : bool :=
  match s with
  | EmptyString => false
  | String c s' =>
      (Ascii.eqb c space && negb escaped) || bareSpace (Ascii.eqb c "\"%char) s'
  end.

Section Handlers.

Context `{Platform}.

Definition setHeap (heap' : gmap loc document) (s : Server) : Server :=
  {| notebooks := notebooks s;
     documents := documents s;
     heap := heap';
     goroutines := goroutines s;
     output := output s |}.

(** [handler.TextDocumentDidChange] (lines 146-155): the changes are
    applied to the text of the document, then its diagnostics are asked
    for, with the delay. *)
Definition TextDocumentDidChange (s : Server) (uri : string)
    (changes : list ContentChange) : Server :=
  match documents s !! uri with
  | None => s
  | Some doc =>
      match heap s !! doc with
      | None => s
      | Some d =>
          refreshDiagnosticsOfDocument
            (setHeap (<[doc := setContent (ApplyChanges (docContent d) changes) d]>
                        (heap s)) s)
            doc true
      end
  end.

(** [handler.TextDocumentHover] (lines 231-270): the text of the note that
    the link under the cursor leads to. *)
Definition TextDocumentHover (s : Server) (uri : string) (pos : protocol.Position)
    : M (option string * option error) :=
  match documents_Get s uri with
  | None => ret (None, None)
  | Some doc =>
      match DocumentLinkAt doc pos with
      | inr err => ret (None, Some err)
      | inl None => ret (None, None)
      | inl (Some link) =>
          match notebookOf s doc with
          | inr err => ret (None, Some err)
          | inl notebook =>
              r <- noteForLink (notebooks s) link doc notebook ;;
              match r with
              | (Some target, None) =>
                  match uriToPath (URI target) with
                  | inr err =>
                      tell (Log "unable to parse URI" err) ;;;
                      ret (None, Some err)
                  | inl path =>
                      match ioutil_ReadFile (fs_Canonical path) with
                      | inr err => ret (None, Some err)
                      | inl contents => ret (Some contents, None)
                      end
                  end
              | (_, err) => ret (None, err)
              end
          end
      end
  end.

(** The loop of lines 289-299, [documentLinks] being the slice built so
    far: a link that does not resolve, or whose resolution fails, is left
    out. *)
Fixpoint resolvedLinks (notebooks : NotebookStore) (doc : document)
    (notebook : Notebook) (links : list documentLink)
    (documentLinks : list DocumentLink) : M (list DocumentLink) :=
  match links with
  | [] => ret documentLinks
  | link :: links =>
      r <- noteForLink notebooks link doc notebook ;;
      resolvedLinks notebooks doc notebook links
        (match r with
         | (Some target, None) =>
             documentLinks ++
               [ {| DocumentLink_Range := Range link; Target := URI target |} ]
         | _ => documentLinks
         end)
  end.

(** [handler.TextDocumentDocumentLink] (lines 272-302).  The error it
    returns with the links is the one of [notebookOf], which is nil
    there. *)
Definition TextDocumentDocumentLink (s : Server) (uri : string)
    : M (list DocumentLink * option error) :=
  match documents_Get s uri with
  | None => ret ([], None)
  | Some doc =>
      match DocumentLinks doc with
      | inr err => ret ([], Some err)
      | inl links =>
          match notebookOf s doc with
          | inr err => ret ([], Some err)
          | inl notebook =>
              documentLinks <- resolvedLinks (notebooks s) doc notebook links [] ;;
              ret (documentLinks, None)
          end
      end
  end.

(** [handler.TextDocumentDefinition] (lines 304-337): the location of the
    note that the link under the cursor leads to; its range is the zero
    range. *)
Definition TextDocumentDefinition (s : Server) (uri : string)
    (pos : protocol.Position) : M (option protocol.Location * option error) :=
  match documents_Get s uri with
  | None => ret (None, None)
  | Some doc =>
      match DocumentLinkAt doc pos with
      | inr err => ret (None, Some err)
      | inl None => ret (None, None)
      | inl (Some link) =>
          match notebookOf s doc with
          | inr err => ret (None, Some err)
          | inl notebook =>
              r <- noteForLink (notebooks s) link doc notebook ;;
              match r with
              | (Some target, None) =>
                  ret (Some {| protocol.URI := URI target;
                               protocol.Range_ :=
                                 {| protocol.Start :=
                                      {| protocol.Line := 0; protocol.Character := 0 |};
                                    protocol.End :=
                                      {| protocol.Line := 0; protocol.Character := 0 |}
                                 |} |}, None)
              | (_, err) => ret (None, err)
              end
          end
      end
  end.

(** [isRangeEmpty]: the two ends are the same position. *)
Definition isRangeEmpty (pos : protocol.Range) : bool :=
  (protocol.Line (protocol.Start pos) =? protocol.Line (protocol.End pos))
  && (protocol.Character (protocol.Start pos) =? protocol.Character (protocol.End pos)).

(** The closure [addAction] of lines 363-389; the handler drops the error
    it returns. *)
Definition addAction (doc : document) (uri : string) (range : protocol.Range)
    (wd dir actionTitle : string) (actions : list CodeAction) : list CodeAction :=
  let opts :=
    {| Title := ContentAtRange doc range;
       Content := "";
       Dir := dir;
       Group := "";
       Template_ := "";
       Extra := [];
       Date := "";
       Edit_ := false;
       InsertLinkAtLocation :=
         Some {| protocol.URI := uri; protocol.Range_ := range |} |} in
  match marshalJSON opts with
  | inr _ => actions
  | inl jsonOpts =>
      actions ++
        [ {| CodeAction_Title := actionTitle;
             CodeAction_Kind := Some "refactor";
             CodeAction_Command :=
               Some {| Command_Command := cmdNew;
                       Arguments := [ArgString wd; ArgMap jsonOpts] |} |} ]
  end.

(** [handler.TextDocumentCodeAction] (lines 350-395). *)
Definition TextDocumentCodeAction (s : Server) (uri : string) (range : protocol.Range)
    : list CodeAction :=
  if isRangeEmpty range then []
  else
    match documents_Get s uri with
    | None => []
    | Some doc =>
        let wd := filepath_Dir (docPath doc) in
        addAction doc uri range wd "" "New note in top directory"
          (addAction doc uri range wd wd "New note in current directory" [])
    end.

(** [toBool] (lines 970-973). *)
Definition toBool (obj : JSONValue) : bool :=
  let s := strings_ToLower (fmt_Sprint obj) in
  String.eqb s "true" || String.eqb s "1".

(** Lines 480-497 of [executeCommandIndex]: the path of the notebook and
    the [force] option. *)
Definition decodeIndexArgs (args : list arg) : (string * bool) + error :=
  match args with
  | [] => inr (ErrMsg "zk.index expects a notebook path as first argument")
  | ArgString path :: rest =>
      match rest with
      | [ArgMap options] =>
          inl (path,
               match JSONMap_lookup options "force" with
               | Some forceOption => toBool forceOption
               | None => false
               end)
      | [_] =>
          inr (ErrMsg "zk.index expects a dictionary of options as second argument")
      | _ => inl (path, false)
      end
  | _ :: _ => inr (ErrMsg "zk.index expects a notebook path as first argument")
  end.

(** [executeCommandIndex] (lines 479-505). *)
Definition executeCommandIndex (s : Server) (args : list arg)
    : (option NoteIndexingStats * option error) * Server :=
  match decodeIndexArgs args with
  | inr err => ((None, Some err), s)
  | inl (path, force) =>
      match Open (notebooks s) path with
      | inr err => ((None, Some err), s)
      | inl notebook =>
          let '((stats, err), notebooks') := Index (notebooks s) notebook force in
          ((Some stats, err), setNotebooks notebooks' s)
      end
  end.



End Handlers.

(** ** More examples *)

(** [strings.ToLower] on the letters A to Z. *)
Definition toLowerByte (c : ascii) : ascii :=
  let n := nat_of_ascii c in
  if Nat.leb 65 n && Nat.leb n 90 then ascii_of_nat (n + 32) else c.

Fixpoint toLowerString (s : string) : string :=
  match s with
  | EmptyString => EmptyString
  | String c s' => String (toLowerByte c) (toLowerString s')
  end.

(** The platform of the examples: the files are those of [exampleNotes]
    under [/nb], a JSON map is the options it decodes to, its key [force]
    is looked up among the [extra] bindings, and a change replaces the
    whole text. *)
Definition toyPlatform : @Platform toy :=
  {| uriToPath := fun uri =>
       match Toy.dropPrefix "file://" uri with
       | Some path => inl path
       | None => inr (ErrMsg "unsupported URI")
       end;
     fs_Canonical := fun path => path;
     ioutil_ReadFile := fun path =>
       match List.find (fun n => String.eqb (Toy.join Toy.root (core.Note_Path n)) path)
                       exampleNotes with
       | Some n => inl (core.RawContent n)
       | None => inr (ErrMsg "no such file")
       end;
     JSONValue := string;
     JSONMap_lookup := fun (options : @JSONMap toy) key =>
       snd <$> List.find (fun kv => String.eqb (fst kv) key)
                         (Extra (options : cmdNewOpts));
     marshalJSON := fun opts => inl (opts : @JSONMap toy);
     fmt_Sprint := fun v => v;
     strings_ToLower := toLowerString;
     NoteIndexingStats := nat;
     Index := fun (st : @NotebookStore toy) _ force =>
       match Toy.indexError (st : Toy.store) with
       | Some err => ((0%nat, Some err), st)
       | None => ((length (Toy.notes (st : Toy.store)), None), st)
       end;
     ContentChange := string;
     ApplyChanges := fun text changes => List.last changes text |}.

(** The collaborators [C] with another [NewNote]. *)
Definition withNewNote (C : Collaborators)
    (newNote : @NotebookStore C -> @Notebook C -> core.NewNoteOpts ->
               (option core.Note * option error) * @NotebookStore C)
    : Collaborators :=
  {| IsURL := @IsURL C;
     Pluralize := @Pluralize C;
     Sprint_int := @Sprint_int C;
     filepath_Join := @filepath_Join C;
     filepath_Clean := @filepath_Clean C;
     filepath_Dir := @filepath_Dir C;
     filepath_Rel := @filepath_Rel C;
     pathToURI := @pathToURI C;
     NotebookStore := @NotebookStore C;
     Notebook := @Notebook C;
     Notebook_Path := @Notebook_Path C;
     Notebook_Config := @Notebook_Config C;
     Open := @Open C;
     FindByHref := @FindByHref C;
     FindMatching := @FindMatching C;
     FindNotes_LinkTo := @FindNotes_LinkTo C;
     FindMinimalNotes := @FindMinimalNotes C;
     FindNote_IncludePaths := @FindNote_IncludePaths C;
     FindCollections_Tag := @FindCollections_Tag C;
     NewNote := newNote;
     RelPath := @RelPath C;
     NewLinkFormatter := @NewLinkFormatter C;
     NewMarkdownLinkFormatter := @NewMarkdownLinkFormatter C;
     NewLinkFormatterContext := @NewLinkFormatterContext C;
     AsMinimalNote := @AsMinimalNote C;
     TimeFromNatural := @TimeFromNatural C;
     JSONMap := @JSONMap C;
     unmarshalJSON := @unmarshalJSON C;
     RenderContext := @RenderContext C;
     Template := @Template C;
     newCompletionTemplates := @newCompletionTemplates C;
     Render := @Render C;
     newCompletionItemRenderContext := @newCompletionItemRenderContext C;
     DocumentLinks := @DocumentLinks C;
     DocumentLinkAt := @DocumentLinkAt C;
     LookBehind := @LookBehind C;
     LookForward := @LookForward C;
     ContentAtRange := @ContentAtRange C |}.

(** The examples on a disk that is full: no note can be created. *)
Definition toyDiskFull : Collaborators :=
  withNewNote toy (fun st _ _ => ((None, Some (ErrMsg "no space left on device")), st)).

(** A document outside the notebook. *)
Definition strayDocument : document :=
  {| docURI := "file:///tmp/a.md";
     docPath := "/tmp/a.md";
     docContent := "";
     NeedsRefreshDiagnostics := false |}.

(** The options of [zk.new] for the note "idea" linked from [uri] at
    [exampleRange]. *)
Definition exampleInsertOpts (uri : string) (edit : bool) : cmdNewOpts :=
  {| Title := "idea"; Content := ""; Dir := "notes"; Group := "";
     Template_ := ""; Extra := []; Date := ""; Edit_ := edit;
     InsertLinkAtLocation :=
       Some {| protocol.URI := uri; protocol.Range_ := exampleRange |} |}.


(** A server of [toyDiskFull] with the notebook of the examples and no
    open document. *)
Definition diskFullServer : @Server toyDiskFull :=
  {| notebooks :=
       exampleStore core.LSPDiagnosticHint core.LSPDiagnosticError None
       : @NotebookStore toyDiskFull;
     documents := ∅;
     heap := ∅;
     goroutines := [];
     output := [] |}.

Definition diskFullArgs : list (@arg toyDiskFull) :=
  [ @ArgString toyDiskFull "/nb";
    @ArgMap toyDiskFull
      ({| Title := "idea"; Content := ""; Dir := "notes"; Group := "";
          Template_ := ""; Extra := []; Date := ""; Edit_ := false;
          InsertLinkAtLocation := None |} : @JSONMap toyDiskFull) ].


(** * Properties *)

Lemma isNone_true s : core.isNone s = true <-> s = core.LSPDiagnosticNone.
Proof. destruct s; simpl; split; congruence. Qed.

Lemma isNone_false s : core.isNone s = false <-> s <> core.LSPDiagnosticNone.
Proof. destruct s; simpl; split; congruence. Qed.

(** ** The writer monad *)

Section MonadLemmas.

Context `{Collaborators}.

Lemma value_ret {A : Type} (a : A) : value (ret a) = a.
Proof. reflexivity. Qed.

Lemma trace_ret {A : Type} (a : A) : trace (ret a) = [].
Proof. reflexivity. Qed.

Lemma value_bind {A B : Type} (m : M A) (k : A -> M B) :
  value (bind m k) = value (k (value m)).
Proof. destruct m as [a t]; unfold bind, value; simpl. destruct (k a); reflexivity. Qed.

Lemma trace_bind {A B : Type} (m : M A) (k : A -> M B) :
  trace (bind m k) = trace m ++ trace (k (value m)).
Proof. destruct m as [a t]; unfold bind, trace, value; simpl. destruct (k a); reflexivity. Qed.

Lemma value_tell (e : Event) : value (tell e) = tt.
Proof. reflexivity. Qed.

Lemma trace_tell (e : Event) : trace (tell e) = [e].
Proof. reflexivity. Qed.

Lemma M_eta {A : Type} (m : M A) : m = (value m, trace m).
Proof. destruct m; reflexivity. Qed.

End MonadLemmas.

Arguments bind : simpl never.
Arguments ret : simpl never.
Arguments tell : simpl never.
Arguments value : simpl never.
Arguments trace : simpl never.

Ltac msimpl :=
  repeat (rewrite ?value_bind, ?trace_bind, ?value_ret, ?trace_ret,
            ?value_tell, ?trace_tell, ?app_nil_r, ?app_nil_l;
          simpl).

(** ** Link resolution *)

Section LinkResolverFacts.

Context `{Collaborators}.

Variable notebooks : NotebookStore.

(** Step 1 alone does not query the index for a URL. *)
Lemma noteForHref_URL href doc notebook :
  IsURL href = true ->
  noteForHref notebooks href doc notebook = ((None, None), []).
Proof. intros Hurl. unfold noteForHref. rewrite Hurl. reflexivity. Qed.

(** The only query of step 1 is an exact lookup. *)
Lemma noteForHref_trace href doc notebook e :
  e ∈ trace (noteForHref notebooks href doc notebook) ->
  isIndexQuery e = true ->
  exists path, e = QFindByHref notebook path false.
Proof.
  unfold noteForHref.
  destruct (IsURL href); [intros Hin; inversion Hin |].
  destruct (filepath_Rel _ _) as [path | err]; [| intros Hin; inversion Hin].
  unfold notebook_FindByHref; msimpl.
  destruct (snd (FindByHref notebooks notebook path false)); msimpl;
    intros Hin Hq; repeat (apply elem_of_cons in Hin as [-> | Hin]);
    try (inversion Hin; fail); try discriminate Hq; eauto.
Qed.

(** A link that is not a wiki link is resolved by step 1 and nothing
    else. *)
Lemma noteForLink_not_wiki link doc notebook :
  IsWikiLink link = false ->
  trace (noteForLink notebooks link doc notebook)
  = trace (noteForHref notebooks (Href link) doc notebook) /\
  fst (value (noteForLink notebooks link doc notebook))
  = match value (noteForHref notebooks (Href link) doc notebook) with
    | (Some note, None) =>
        Some {| MinimalNote := note;
                URI := pathToURI (filepath_Join (Notebook_Path notebook)
                                    (core.Path note)) |}
    | _ => None
    end.
Proof.
  intros Hwiki. unfold noteForLink. msimpl. rewrite Hwiki, !andb_false_r.
  msimpl.
  destruct (value (noteForHref notebooks (Href link) doc notebook))
    as [[note |] [err |]]; msimpl; rewrite ?app_nil_r; auto.
Qed.

(** A hit of step 1 ends the resolution: steps 2 and 3 are not tried. *)
Lemma noteForLink_step1_hit link doc notebook note :
  value (noteForHref notebooks (Href link) doc notebook) = (Some note, None) ->
  noteForLink notebooks link doc notebook
  = ((Some {| MinimalNote := note;
              URI := pathToURI (filepath_Join (Notebook_Path notebook)
                                  (core.Path note)) |}, None),
     trace (noteForHref notebooks (Href link) doc notebook)).
Proof.
  intros Hhit. rewrite (M_eta (noteForLink _ _ _ _)).
  unfold noteForLink. msimpl. rewrite Hhit. msimpl. reflexivity.
Qed.

(** A hit of step 2 ends the resolution: step 3 is not tried. *)
Lemma noteForLink_step2_hit link doc notebook note :
  value (noteForHref notebooks (Href link) doc notebook) = (None, None) ->
  IsWikiLink link = true ->
  FindByHref notebooks notebook (Href link) true = (Some note, None) ->
  noteForLink notebooks link doc notebook
  = ((Some {| MinimalNote := note;
              URI := pathToURI (filepath_Join (Notebook_Path notebook)
                                  (core.Path note)) |}, None),
     trace (noteForHref notebooks (Href link) doc notebook)
       ++ [QFindByHref notebook (Href link) true]).
Proof.
  intros Hmiss Hwiki Hhit. rewrite (M_eta (noteForLink _ _ _ _)).
  unfold noteForLink, notebook_FindByHref. msimpl.
  rewrite Hmiss, Hwiki, Hhit. msimpl. reflexivity.
Qed.

(** When steps 1 and 2 find nothing, a wiki link is resolved by the
    titles. *)
Lemma noteForLink_step3 link doc notebook :
  value (noteForHref notebooks (Href link) doc notebook) = (None, None) ->
  IsWikiLink link = true ->
  FindByHref notebooks notebook (Href link) true = (None, None) ->
  trace (noteForLink notebooks link doc notebook)
  = trace (noteForHref notebooks (Href link) doc notebook)
      ++ [QFindByHref notebook (Href link) true]
      ++ trace (noteMatchingTitle notebooks (Href link) notebook) /\
  fst (value (noteForLink notebooks link doc notebook))
  = match value (noteMatchingTitle notebooks (Href link) notebook) with
    | (Some note, None) =>
        Some {| MinimalNote := note;
                URI := pathToURI (filepath_Join (Notebook_Path notebook)
                                    (core.Path note)) |}
    | _ => None
    end.
Proof.
  intros Hmiss Hwiki Hmiss2.
  unfold noteForLink, notebook_FindByHref. msimpl.
  rewrite Hmiss, Hwiki, Hmiss2. msimpl.
  destruct (value (noteMatchingTitle notebooks (Href link) notebook))
    as [[note |] [err |]]; msimpl; rewrite ?app_nil_r; auto.
Qed.

(** A wiki link whose href is a URL skips step 1 and goes on to step 2: the
    first thing the resolver does is to ask the index for a partial
    match. *)
Lemma noteForLink_wiki_URL link doc notebook :
  IsURL (Href link) = true ->
  IsWikiLink link = true ->
  exists rest,
    trace (noteForLink notebooks link doc notebook)
    = QFindByHref notebook (Href link) true :: rest.
Proof.
  intros Hurl Hwiki. unfold noteForLink, notebook_FindByHref.
  rewrite (noteForHref_URL _ _ _ Hurl). msimpl. rewrite Hwiki. msimpl.
  eexists. reflexivity.
Qed.

(** A link that is not a wiki link and whose href is a URL resolves to
    nothing, and the index is not asked. *)
Lemma noteForLink_plain_URL link doc notebook :
  IsURL (Href link) = true ->
  IsWikiLink link = false ->
  noteForLink notebooks link doc notebook = ((None, None), []).
Proof.
  intros Hurl Hwiki. unfold noteForLink.
  rewrite (noteForHref_URL _ _ _ Hurl). msimpl. rewrite Hwiki. reflexivity.
Qed.

(** The resolver returns a note or an error, never both. *)
Lemma noteForLink_value link doc notebook :
  match value (noteForLink notebooks link doc notebook) with
  | (Some _, Some _) => False
  | _ => True
  end.
Proof.
  unfold noteForLink. msimpl.
  match goal with
  | |- context [value (if ?b then ?x else ?y)] =>
      destruct (value (if b then x else y)) as [[note |] [err |]]
  end; msimpl; exact I.
Qed.

End LinkResolverFacts.

(** The three steps on the examples: a link to [b.md] is resolved by the
    exact lookup alone; the wiki link [[exam]] by the partial match, after
    the exact lookup has missed; the wiki link [[Some Title Words]] by the
    titles, after both have missed. *)
Example noteForLink_step1_example :
  trace (@noteForLink toy
           (exampleStore core.LSPDiagnosticHint core.LSPDiagnosticError None)
           (exampleLink "b.md" false false) (exampleDocument "") exampleNotebook)
  = [ @QFindByHref toy exampleNotebook "notes/b.md" false ].
Proof. reflexivity. Qed.

Example noteForLink_step2_example :
  @noteForLink toy
    (exampleStore core.LSPDiagnosticHint core.LSPDiagnosticError None)
    (exampleLink "exam" false true) (exampleDocument "") exampleNotebook
  = ((Some {| MinimalNote :=
                {| core.ID := 2; core.Path := "bookmarks/example.md";
                   core.Title := "https://example.com" |};
              URI := "file:///nb/bookmarks/example.md" |}, None),
     [ @QFindByHref toy exampleNotebook "notes/exam" false;
       @QFindByHref toy exampleNotebook "exam" true ]).
Proof. reflexivity. Qed.

Example noteForLink_step3_example :
  @noteForLink toy
    (exampleStore core.LSPDiagnosticHint core.LSPDiagnosticError None)
    (exampleLink "Some Title Words" false true) (exampleDocument "") exampleNotebook
  = ((Some {| MinimalNote :=
                {| core.ID := 1; core.Path := "notes/b.md";
                   core.Title := "Some Title Words" |};
              URI := "file:///nb/notes/b.md" |}, None),
     [ @QFindByHref toy exampleNotebook "notes/Some Title Words" false;
       @QFindByHref toy exampleNotebook "Some Title Words" true;
       @QFindMatching toy exampleNotebook "title:(Some Title Words)" ]).
Proof. reflexivity. Qed.

(** C1, at the input where the code departs from it: the wiki link
    [[https://example.com]], whose href is a URL.  Step 1 is skipped, and
    the resolver goes on to steps 2 and 3: it asks the index twice, and
    resolves the link to the note with that title. *)
Theorem C1_wiki_link_to_URL_is_resolved :
  let link := exampleLink "https://example.com" false true in
  let notebooks := exampleStore core.LSPDiagnosticHint core.LSPDiagnosticError None in
  let notebook := exampleConfig core.LSPDiagnosticHint core.LSPDiagnosticError in
  @IsURL toy (Href link) = true /\
  @noteForLink toy notebooks link (exampleDocument "") notebook
  = ((Some {| MinimalNote :=
                {| core.ID := 2; core.Path := "bookmarks/example.md";
                   core.Title := "https://example.com" |};
              URI := "file:///nb/bookmarks/example.md" |}, None),
     [ @QFindByHref toy notebook "https://example.com" true;
       @QFindMatching toy notebook "title:(https://example.com)" ]).
Proof. split; vm_compute; reflexivity. Qed.

(** ** Diagnostics of the links of a document *)

Section DiagnosticsFacts.

Context `{Collaborators}.

Variable notebooks : NotebookStore.
Variable diagConfig : core.LSPDiagnosticConfig.
Variable doc : document.
Variable notebook : Notebook.

(** The loop appends, link by link, what its body yields. *)
Lemma diagnosticsOfLinks_value links diagnostics :
  value (diagnosticsOfLinks notebooks diagConfig doc notebook links diagnostics)
  = diagnostics
      ++ omap (fun link =>
                 value (linkDiagnostic notebooks diagConfig doc notebook link))
              links.
Proof.
  revert diagnostics.
  induction links as [| link links IH]; intros diagnostics; simpl.
  - msimpl. reflexivity.
  - msimpl. rewrite IH.
    destruct (value (linkDiagnostic notebooks diagConfig doc notebook link));
      simpl; rewrite <- ?app_assoc; reflexivity.
Qed.

(** What the loop asks and logs does not depend on what it has built. *)
Lemma diagnosticsOfLinks_trace links diagnostics :
  trace (diagnosticsOfLinks notebooks diagConfig doc notebook links diagnostics)
  = concat (map (fun link =>
                   trace (linkDiagnostic notebooks diagConfig doc notebook link))
                links).
Proof.
  revert diagnostics.
  induction links as [| link links IH]; intros diagnostics; simpl.
  - reflexivity.
  - msimpl. rewrite IH. reflexivity.
Qed.

Lemma linkDiagnostic_URL link :
  IsURL (Href link) = true ->
  linkDiagnostic notebooks diagConfig doc notebook link = (None, []).
Proof. intros Hurl. unfold linkDiagnostic. rewrite Hurl. reflexivity. Qed.

Lemma linkDiagnostic_error link target err :
  IsURL (Href link) = false ->
  value (noteForLink notebooks link doc notebook) = (target, Some err) ->
  linkDiagnostic notebooks diagConfig doc notebook link
  = (None, trace (noteForLink notebooks link doc notebook) ++ [LogErr err]).
Proof.
  intros Hurl Hres. rewrite (M_eta (linkDiagnostic _ _ _ _ _)).
  unfold linkDiagnostic. rewrite Hurl. msimpl. rewrite Hres.
  destruct target; msimpl; reflexivity.
Qed.

Lemma linkDiagnostic_miss link :
  IsURL (Href link) = false ->
  value (noteForLink notebooks link doc notebook) = (None, None) ->
  value (linkDiagnostic notebooks diagConfig doc notebook link)
  = if core.isNone (core.DeadLink diagConfig) then None
    else Some (deadLinkDiagnostic diagConfig link).
Proof.
  intros Hurl Hres. unfold linkDiagnostic. rewrite Hurl. msimpl. rewrite Hres.
  destruct (core.isNone _); msimpl; reflexivity.
Qed.

Lemma linkDiagnostic_hit link target :
  IsURL (Href link) = false ->
  value (noteForLink notebooks link doc notebook) = (Some target, None) ->
  value (linkDiagnostic notebooks diagConfig doc notebook link)
  = if HasTitle link || core.isNone (core.WikiTitle diagConfig) then None
    else Some (missingTitleDiagnostic diagConfig link target).
Proof.
  intros Hurl Hres. unfold linkDiagnostic. rewrite Hurl. msimpl. rewrite Hres.
  destruct (HasTitle link || _); msimpl; reflexivity.
Qed.

End DiagnosticsFacts.



(** ** Index errors *)

Section IndexErrors.

Context `{Collaborators}.

Variable notebooks : NotebookStore.



End IndexErrors.




(** ** Refresh cycles *)

Section CycleFacts.

Context `{Collaborators}.




Lemma refresh_flag_set s doc delay :
  flagOf s doc = true -> refreshDiagnosticsOfDocument s doc delay = s.
Proof.
  unfold flagOf, refreshDiagnosticsOfDocument.
  destruct (heap s !! doc) as [d |]; [| discriminate].
  intros ->. reflexivity.
Qed.

(** What a request does: nothing, a log line, or the start of a cycle. *)
Lemma refresh_cases s doc delay :
  let s' := refreshDiagnosticsOfDocument s doc delay in
  (heap s' = heap s /\ goroutines s' = goroutines s) \/
  exists d notebook,
    heap s !! doc = Some d /\
    NeedsRefreshDiagnostics d = false /\
    notebookOf s d = inl notebook /\
    heap s' = <[doc := setNeedsRefreshDiagnostics true d]> (heap s) /\
    goroutines s'
    = goroutines s ++
        [ {| g_doc := doc;
             g_notebook := notebook;
             g_diagConfig := core.LSP_Diagnostics (Notebook_Config notebook);
             g_delay := delay;
             g_phase := Spawned |} ] /\
    output s' = output s.
Proof.
  cbv zeta. unfold refreshDiagnosticsOfDocument.
  destruct (heap s !! doc) as [d |] eqn:Hd; [| left; split; reflexivity].
  destruct (NeedsRefreshDiagnostics d) eqn:Hflag; [left; split; reflexivity |].
  destruct (notebookOf s d) as [notebook | err] eqn:Hnb;
    [| left; split; reflexivity].
  destruct (core.isNone _ && core.isNone _); [left; split; reflexivity |].
  right. exists d, notebook. simpl. repeat split; auto.
Qed.


Lemma step_documents_alive s l s' :
  step s l = Some s' -> documents_alive s -> documents_alive s'.
Proof.
  unfold documents_alive.
  destruct l as [doc delay | doc text | doc d | i | i]; simpl; intros Hstep Hinv j g' Hj.
  - destruct (heap s !! doc) as [d0 |] eqn:Hd; [| discriminate].
    injection Hstep as <-.
    destruct (refresh_cases s doc delay)
      as [[Hheap Hgs] | (d & notebook & Hd' & _ & _ & Hheap & Hgs & _)];
      rewrite Hheap; rewrite Hgs in Hj; [eauto |].
    apply lookup_app_Some in Hj as [Hj | [_ Hj]].
    + apply lookup_insert_is_Some'. right. eauto.
    + apply list_lookup_singleton_Some in Hj as [_ <-]. simpl.
      apply lookup_insert_is_Some'. left. reflexivity.
  - destruct (heap s !! doc) as [d |] eqn:Hd; [| discriminate].
    injection Hstep as <-. simpl in *.
    apply lookup_insert_is_Some'. right. eauto.
  - destruct (heap s !! doc) eqn:Hd; [discriminate |].
    destruct (NeedsRefreshDiagnostics d); [discriminate |].
    injection Hstep as <-. simpl in *.
    apply lookup_insert_is_Some'. right. eauto.
  - unfold goroutine_wake in Hstep.
    destruct (goroutines s !! i) as [g |] eqn:Hg; [| discriminate].
    destruct (g_phase g); try discriminate.
    destruct (heap s !! g_doc g) as [d |] eqn:Hd; [| discriminate].
    injection Hstep as <-. simpl in *.
    apply lookup_insert_is_Some'. right.
    apply list_lookup_insert_Some in Hj as [(? & ? & _) | [_ Hj]];
      subst; simpl; eauto.
  - unfold goroutine_compute in Hstep.
    destruct (goroutines s !! i) as [g |] eqn:Hg; [| discriminate].
    destruct (g_phase g); try discriminate.
    destruct (heap s !! g_doc g) as [d |] eqn:Hd; [| discriminate].
    injection Hstep as <-. simpl in *.
    apply list_lookup_insert_Some in Hj as [(? & ? & _) | [_ Hj]];
      subst; simpl; eauto.
Qed.

Lemma run_invariant (P : Server -> Prop) :
  (forall s l s', step s l = Some s' -> P s -> P s') ->
  forall ls s s', run s ls = Some s' -> P s -> P s'.
Proof.
  intros Hstep. induction ls as [| l ls IH]; simpl; intros s s' Hrun HP.
  - injection Hrun as <-. exact HP.
  - destruct (step s l) as [s1 |] eqn:Hs; [| discriminate]. eauto.
Qed.


Lemma reachable_documents_alive s : reachable s -> documents_alive s.
Proof.
  intros (s0 & ls & [Hgs _] & Hrun).
  apply (run_invariant _ step_documents_alive ls s0 s Hrun).
  intros i g Hi. rewrite Hgs in Hi. discriminate.
Qed.

End CycleFacts.

Section Reachability.

Context `{Collaborators}.

Lemma run_app s ls1 ls2 :
  run s (ls1 ++ ls2)
  = match run s ls1 with
    | Some s' => run s' ls2
    | None => None
    end.
Proof.
  revert s. induction ls1 as [| l ls1 IH]; intros s; simpl; [reflexivity |].
  destruct (step s l); [apply IH | reflexivity].
Qed.


Lemma reachable_run s ls s' : reachable s -> run s ls = Some s' -> reachable s'.
Proof.
  intros (s0 & ls0 & Hinit & Hrun0) Hrun.
  exists s0, (ls0 ++ ls). split; [exact Hinit |].
  rewrite run_app, Hrun0. exact Hrun.
Qed.

Lemma initial_reachable s : initial s -> reachable s.
Proof. intros Hinit. exists s, []. split; [exact Hinit | reflexivity]. Qed.

End Reachability.

Lemma exampleServer_initial text wikiTitle deadLink indexError :
  @initial toy (exampleServer text wikiTitle deadLink indexError).
Proof.
  split; [reflexivity |]. simpl. intros l d Hd.
  apply lookup_singleton_Some in Hd as [_ <-]. reflexivity.
Qed.

(** C4: when the wiki-title and the dead-link severities are both "none", a
    request for the diagnostics of a document leaves the server as it was:
    the flag is not set, no goroutine is started, and nothing is logged,
    asked of the index or published. *)
Theorem C4_no_cycle_when_both_disabled `{Collaborators}
    (s : Server) (doc : loc) (d : document) (notebook : Notebook) (delay : bool) :
  heap s !! doc = Some d ->
  notebookOf s d = inl notebook ->
  core.WikiTitle (core.LSP_Diagnostics (Notebook_Config notebook))
  = core.LSPDiagnosticNone ->
  core.DeadLink (core.LSP_Diagnostics (Notebook_Config notebook))
  = core.LSPDiagnosticNone ->
  refreshDiagnosticsOfDocument s doc delay = s /\
  step s (Refresh doc delay) = Some s /\
  activeCycles (refreshDiagnosticsOfDocument s doc delay) doc = activeCycles s doc /\
  output (refreshDiagnosticsOfDocument s doc delay) = output s.
Proof.
  intros Hd Hnb Hwiki Hdead.
  assert (refreshDiagnosticsOfDocument s doc delay = s) as Heq.
  { unfold refreshDiagnosticsOfDocument. rewrite Hd.
    destruct (NeedsRefreshDiagnostics d); [reflexivity |].
    rewrite Hnb, Hwiki, Hdead. reflexivity. }
  simpl. rewrite Hd, Heq. auto.
Qed.

(** On the examples, both severities being "none". *)
Lemma C4_no_cycle_when_both_disabled_witness :
  let s := exampleServer "[[missing]]" core.LSPDiagnosticNone core.LSPDiagnosticNone
             None in
  @refreshDiagnosticsOfDocument toy s 0%nat true = s /\
  @step toy s (Refresh 0%nat true) = Some s /\
  @activeCycles toy (@refreshDiagnosticsOfDocument toy s 0%nat true) 0%nat
  = @activeCycles toy s 0%nat /\
  output (@refreshDiagnosticsOfDocument toy s 0%nat true) = output s.
Proof.
  intros s.
  apply (C4_no_cycle_when_both_disabled (H := toy) s 0%nat
           (exampleDocument "[[missing]]")
           (exampleConfig core.LSPDiagnosticNone core.LSPDiagnosticNone) true);
    reflexivity.
Defined.




(** C6, as amended: a cycle that has started runs to its end: its goroutine
    can clear the flag, and can then compute.  When the links of the
    document can be read, the last thing the goroutine does is to publish
    the diagnostics it has built, under the URI of the document, also when
    there are none; when they cannot be read, it logs the error and
    publishes nothing. *)
Theorem C6_cycle_ends_by_publishing `{Collaborators}
    (s : Server) (i : nat) (g : goroutine) :
  reachable s ->
  goroutines s !! i = Some g ->
  (g_phase g = Spawned ->
   exists s',
     goroutine_wake s i = Some s' /\
     goroutines s' !! i = Some (setPhase Computing g)) /\
  (g_phase g = Computing ->
   exists d s',
     heap s !! g_doc g = Some d /\
     goroutine_compute s i = Some s' /\
     goroutines s' !! i = Some (setPhase Finished g) /\
     match DocumentLinks d with
     | inl links =>
         let m := diagnosticsOfLinks (notebooks s) (g_diagConfig g) d
                    (g_notebook g) links [] in
         output s'
         = output s ++ trace m ++ [PublishDiagnostics (docURI d) (value m)]
     | inr err => output s' = output s ++ [LogErr err]
     end).
Proof.
  intros Hreach Hg.
  destruct (reachable_documents_alive s Hreach i g Hg) as [d Hd].
  assert (i < length (goroutines s))%nat as Hi by (eapply lookup_lt_Some, Hg).
  split; intros Hphase.
  - eexists. unfold goroutine_wake. rewrite Hg, Hphase, Hd.
    split; [reflexivity |]. simpl. now apply list_lookup_insert_eq.
  - exists d. eexists. unfold goroutine_compute. rewrite Hg, Hphase, Hd.
    split; [reflexivity |]. split; [reflexivity |]. simpl.
    split; [now apply list_lookup_insert_eq |].
    unfold computeDiagnostics.
    destruct (DocumentLinks d) as [links | err]; msimpl; reflexivity.
Qed.

(** On the examples: the cycle of a document without links publishes the
    empty set. *)
Lemma C6_cycle_ends_by_publishing_witness :
  let s := exampleComputing "no link here" in
  exists s',
    @goroutine_compute toy s 0%nat = Some s' /\
    output s' = [@PublishDiagnostics toy "file:///nb/notes/a.md" []].
Proof.
  intros s.
  assert (@reachable toy s) as Hreach.
  { exists (exampleServer "no link here" core.LSPDiagnosticHint
              core.LSPDiagnosticError None),
      [Refresh 0%nat false; Wake 0%nat].
    split; [apply exampleServer_initial | reflexivity]. }
  destruct (C6_cycle_ends_by_publishing (H := toy) s 0%nat
              (exampleGoroutine Computing) Hreach eq_refl) as [_ Hcompute].
  destruct (Hcompute eq_refl) as (d & s' & Hd & Hstep & _ & Hout).
  exists s'. split; [exact Hstep |].
  vm_compute in Hd. injection Hd as <-. exact Hout.
Defined.

(** C6, as stated, fails: the cycle of a document whose links cannot be read
    starts, runs to its end, and publishes nothing. *)
Lemma C6_cycle_without_publication :
  let s0 := exampleServer "\0" core.LSPDiagnosticHint core.LSPDiagnosticError None in
  match @run toy s0 [Refresh 0%nat false; Wake 0%nat; Finish 0%nat] with
  | Some s =>
      @goroutines toy s !! 0%nat = Some (exampleGoroutine Finished) /\
      output s = [@LogErr toy (ErrMsg "unreadable document")] /\
      existsb (@isPublish toy) (output s) = false
  | None => False
  end.
Proof. vm_compute. repeat split. Qed.

(** ** Completion *)

(** C7: what the completion handler answers is decided by the characters
    before the cursor, the longest trigger first: the three characters
    "](("  give the link completions; failing that, the two characters "[["
    give the link completions; failing that, the character "#" gives the
    tag completions if hashtags are enabled, and the character ":" gives
    them if colon tags are enabled; in every other case the answer is no
    completions and no error, and nothing is asked of the index. *)
Theorem C7_completion_trigger_precedence `{Collaborators}
    (s : Server) (params : CompletionParams) (doc : document) (notebook : Notebook) :
  documents_Get s (TextDocument_URI params) = Some doc ->
  notebookOf s doc = inl notebook ->
  let behind := LookBehind doc (Position params) in
  let markdown := core.Format_Markdown (Notebook_Config notebook) in
  let links := buildLinkCompletionList (notebooks s) doc notebook params in
  let tags := buildTagCompletionList (notebooks s) notebook in
  let nothing := ((None, None), []) in
  let r := TextDocumentCompletion s params in
  (behind 3 = "]((" -> r = links) /\
  (behind 3 <> "]((" -> behind 2 = "[[" -> r = links) /\
  (behind 3 <> "]((" -> behind 2 <> "[[" -> behind 1 = "#" ->
     r = if core.Hashtags markdown then tags "#" else nothing) /\
  (behind 3 <> "]((" -> behind 2 <> "[[" -> behind 1 = ":" ->
     r = if core.ColonTags markdown then tags ":" else nothing) /\
  (behind 3 <> "]((" -> behind 2 <> "[[" -> behind 1 <> "#" -> behind 1 <> ":" ->
     r = nothing).
Proof.
  intros Hdoc Hnb behind markdown links tags nothing r.
  subst behind markdown links tags nothing r.
  unfold TextDocumentCompletion. rewrite Hdoc, Hnb.
  repeat split.
  - intros ->. reflexivity.
  - intros H3%String.eqb_neq ->. rewrite H3. reflexivity.
  - intros H3%String.eqb_neq H2%String.eqb_neq ->. rewrite H3, H2. reflexivity.
  - intros H3%String.eqb_neq H2%String.eqb_neq ->. rewrite H3, H2. reflexivity.
  - intros H3%String.eqb_neq H2%String.eqb_neq Hhash%String.eqb_neq
      Hcolon%String.eqb_neq.
    rewrite H3, H2, Hhash, Hcolon. reflexivity.
Qed.

(** On the examples: the cursor after "see [[" asks for the link
    completions. *)
Lemma C7_completion_trigger_precedence_witness :
  let s := exampleServer "see [[" core.LSPDiagnosticHint core.LSPDiagnosticError None in
  let params :=
    {| TextDocument_URI := "file:///nb/notes/a.md";
       Position := {| protocol.Line := 0; protocol.Character := 6 |} |} in
  @LookBehind toy (exampleDocument "see [[") (Position params) 2 = "[[" /\
  @TextDocumentCompletion toy s params
  = @buildLinkCompletionList toy (notebooks s) (exampleDocument "see [[")
      exampleNotebook params.
Proof.
  intros s params. split; [reflexivity |].
  destruct (C7_completion_trigger_precedence (H := toy) s params
              (exampleDocument "see [[") exampleNotebook eq_refl eq_refl)
    as (_ & Hwiki & _).
  apply Hwiki; [discriminate | reflexivity].
Defined.

Section CompletionFacts.

Context `{Collaborators}.

(** The primary edit of an item is the one [newTextEditForLink] builds. *)
Lemma newCompletionItem_TextEdit notebook note doc pos linkFormatter templates item :
  newCompletionItem notebook note doc pos linkFormatter templates = inl item ->
  exists edit,
    protocol.TextEdit_ item = Some edit /\
    newTextEditForLink notebook note doc pos linkFormatter = inl edit.
Proof.
  unfold newCompletionItem.
  destruct (newCompletionItemRenderContext _ _ _) as [ctx | ?]; [| discriminate].
  destruct (match Label templates with Some _ => _ | None => _ end)
    as [label | ?]; [| discriminate].
  destruct (match FilterText templates with Some _ => _ | None => _ end)
    as [filterText | ?]; [| discriminate].
  destruct (match Detail templates with Some _ => _ | None => _ end)
    as [detail | ?]; [| discriminate].
  destruct (newTextEditForLink notebook note doc pos linkFormatter)
    as [edit | ?]; [| discriminate].
  intros [= <-]. exists edit. split; reflexivity.
Qed.

(** The items of the loop are those it was given and one per note whose
    item could be built. *)
Lemma completionItems_elem notebook doc pos linkFormatter templates notes items item :
  item ∈ value (completionItems notebook doc pos linkFormatter templates notes items) ->
  item ∈ items \/
  exists note,
    note ∈ notes /\
    newCompletionItem notebook note doc pos linkFormatter templates = inl item.
Proof.
  revert items. induction notes as [| note notes IH]; intros items; simpl.
  - msimpl. auto.
  - destruct (newCompletionItem notebook note doc pos linkFormatter templates)
      as [item' | err] eqn:Hitem; msimpl; intros Hin.
    + destruct (IH _ Hin) as [Hin' | (note' & Hn & Hi)].
      * apply elem_of_app in Hin' as [Hin' | Hin']; [auto |].
        apply list_elem_of_singleton in Hin' as ->.
        right. exists note. split; [left | exact Hitem].
      * right. exists note'. split; [right; exact Hn | exact Hi].
    + destruct (IH _ Hin) as [Hin' | (note' & Hn & Hi)]; [auto |].
      right. exists note'. split; [right; exact Hn | exact Hi].
Qed.

Lemma offsetPos_0 pos :
  0 <= protocol.Character pos < 2 ^ 32 -> offsetPos pos 0 = pos.
Proof.
  intros Hc. destruct pos as [line char]. unfold offsetPos, protocol.uint32_wrap.
  simpl in *. rewrite Z.add_0_r, Z.mod_small by lia. reflexivity.
Qed.

End CompletionFacts.

(** C8: the primary edit of every item of the link completions starts at
    the cursor.  When the two characters after the cursor are "]]" or "))",
    it ends on the same line two characters further ([uint32] arithmetic:
    exactly two further unless the column is one of the last two a
    [uint32] can hold); otherwise it ends at the cursor, the range being
    empty. *)
Theorem C8_link_text_edit_range `{Collaborators}
    (notebooks : NotebookStore) (doc : document) (notebook : Notebook)
    (params : CompletionParams) (items : list protocol.CompletionItem)
    (item : protocol.CompletionItem) :
  let pos := Position params in
  let suffix := LookForward doc pos 2 in
  0 <= protocol.Character pos < 2 ^ 32 ->
  value (buildLinkCompletionList notebooks doc notebook params) = (Some items, None) ->
  item ∈ items ->
  exists edit,
    protocol.TextEdit_ item = Some edit /\
    protocol.Start (protocol.TextEdit_Range edit) = pos /\
    (suffix = "]]" \/ suffix = "))" ->
       protocol.End (protocol.TextEdit_Range edit)
       = {| protocol.Line := protocol.Line pos;
            protocol.Character := (protocol.Character pos + 2) mod 2 ^ 32 |} /\
       (protocol.Character pos + 2 < 2 ^ 32 ->
          protocol.End (protocol.TextEdit_Range edit)
          = {| protocol.Line := protocol.Line pos;
               protocol.Character := protocol.Character pos + 2 |})) /\
    (suffix <> "]]" -> suffix <> "))" ->
       protocol.End (protocol.TextEdit_Range edit) = pos).
Proof.
  intros pos suffix Hpos Hlist Hin. subst pos suffix.
  unfold buildLinkCompletionList in Hlist.
  destruct (newLinkFormatter doc notebook params) as [linkFormatter | ?];
    [| discriminate Hlist].
  destruct (newCompletionTemplates _) as [templates | ?]; [| discriminate Hlist].
  revert Hlist. msimpl.
  destruct (FindMinimalNotes notebooks notebook) as [notes | ?]; msimpl;
    [| discriminate].
  intros [= <-].
  apply completionItems_elem in Hin as [Hin | (note & _ & Hitem)];
    [inversion Hin |].
  apply newCompletionItem_TextEdit in Hitem as (edit & Hedit & Hbuild).
  exists edit. split; [exact Hedit |].
  unfold newTextEditForLink in Hbuild.
  destruct (NewLinkFormatterContext _ _ _) as [context | ?]; [| discriminate].
  destruct (linkFormatter context) as [link | ?]; [| discriminate].
  injection Hbuild as <-. simpl.
  split; [now apply offsetPos_0 |]. split.
  - intros Hclose.
    assert (String.eqb (LookForward doc (Position params) 2) "]]"
            || String.eqb (LookForward doc (Position params) 2) "))" = true) as ->.
    { destruct Hclose as [-> | ->]; reflexivity. }
    unfold offsetPos, protocol.uint32_wrap. simpl.
    change (2 mod 2 ^ 32) with 2.
    split; [reflexivity |]. intros Hfit. rewrite Z.mod_small by lia. reflexivity.
  - intros H1%String.eqb_neq H2%String.eqb_neq. rewrite H1, H2. simpl.
    now apply offsetPos_0.
Qed.

(** On the examples: the cursor between "[[" and "]]", at column 2; the
    edit of the first item runs from column 2 to column 4. *)
Lemma C8_link_text_edit_range_witness :
  let doc := exampleDocument "[[]]" in
  let params :=
    {| TextDocument_URI := "file:///nb/notes/a.md";
       Position := {| protocol.Line := 0; protocol.Character := 2 |} |} in
  let notebooks := exampleStore core.LSPDiagnosticHint core.LSPDiagnosticError None in
  let items :=
    default [] (fst (value (@buildLinkCompletionList toy notebooks doc
                              exampleNotebook params))) in
  @LookForward toy doc (Position params) 2 = "]]" /\
  match head items with
  | Some item =>
      exists edit,
        protocol.TextEdit_ item = Some edit /\
        protocol.TextEdit_Range edit
        = {| protocol.Start := {| protocol.Line := 0; protocol.Character := 2 |};
             protocol.End := {| protocol.Line := 0; protocol.Character := 4 |} |}
  | None => False
  end.
Proof.
  intros doc params notebooks items. split; [reflexivity |].
  destruct (head items) as [item |] eqn:Hhead; [| discriminate Hhead].
  destruct (C8_link_text_edit_range (H := toy) notebooks doc exampleNotebook params
              items item)
    as (edit & Hedit & Hstart & Hclose & _).
  - simpl. lia.
  - reflexivity.
  - apply head_Some_elem_of, Hhead.
  - exists edit. split; [exact Hedit |].
    destruct Hclose as [_ Hend]; [left; reflexivity |].
    specialize (Hend ltac:(simpl; lia)).
    destruct edit as [[start end_] text]. simpl in *. subst. reflexivity.
Defined.

(** ** The command [zk.new] *)

Section CommandFacts.

Context `{Collaborators}.

(** The rest of the command reads the documents of the server, not its
    notebooks. *)
Lemma finishCommandNew_setNotebooks notebooks' s notebook opts note :
  finishCommandNew (setNotebooks notebooks' s) notebook opts note
  = finishCommandNew s notebook opts note.
Proof. reflexivity. Qed.

Lemma executeCommandNew_value s args wd opts notebook date :
  decodeArgs args = inl (wd, opts) ->
  Open (notebooks s) wd = inl notebook ->
  TimeFromNatural (Date opts) = inl date ->
  value (executeCommandNew s args)
  = let r := value (newOrExistingNote (notebooks s) notebook opts date) in
    match fst r with
    | inr err => (inr err, setNotebooks (snd r) s)
    | inl note =>
        (value (finishCommandNew s notebook opts note), setNotebooks (snd r) s)
    end.
Proof.
  intros Hargs Hopen Hdate. unfold executeCommandNew.
  rewrite Hargs, Hopen, Hdate. msimpl.
  destruct (fst (value (newOrExistingNote (notebooks s) notebook opts date)));
    msimpl; reflexivity.
Qed.

Lemma newOrExistingNote_created notebooks notebook opts date note notebooks' :
  NewNote notebooks notebook (newNoteOpts opts date) = ((Some note, None), notebooks') ->
  newOrExistingNote notebooks notebook opts date = ((inl note, notebooks'), []).
Proof. intros Hnew. unfold newOrExistingNote. rewrite Hnew. reflexivity. Qed.

Lemma newOrExistingNote_conflict notebooks notebook opts date n0 err name notebooks' :
  NewNote notebooks notebook (newNoteOpts opts date) = ((n0, Some err), notebooks') ->
  errors_As_NoteExists err = Some name ->
  value (newOrExistingNote notebooks notebook opts date)
  = (match FindNote_IncludePaths notebooks' notebook [name] with
     | (_, Some err') => inr err'
     | (None, None) => inr (ErrMsg "zk.new could not generate a new note")
     | (Some note, None) => inl note
     end, notebooks') /\
  trace (newOrExistingNote notebooks notebook opts date) = [QFindNote notebook [name]].
Proof.
  intros Hnew Has. unfold newOrExistingNote. rewrite Hnew, Has. msimpl.
  destruct (FindNote_IncludePaths notebooks' notebook [name]) as [[note |] [err' |]];
    msimpl; split; reflexivity.
Qed.

End CommandFacts.

(** C9, as amended: a conflict alone does not fail the command.  When
    creation fails because a note exists under the resolved name, the
    command looks that note up by the name; when the lookup finds it, the
    command goes on exactly as it does for a note just created, and returns
    its path when no link is to be inserted; when the lookup fails or finds
    nothing, the command fails.  So a second call with the same arguments,
    whose creation meets the note of the first call and whose lookup finds
    it, returns what the first call returned and leaves the notebook as the
    failed creation left it. *)
Theorem C9_create_or_find `{Collaborators}
    (s : Server) (args : list arg) (wd : string) (opts : cmdNewOpts)
    (notebook : Notebook) (date : Z) (note : core.Note) :
  decodeArgs args = inl (wd, opts) ->
  Open (notebooks s) wd = inl notebook ->
  TimeFromNatural (Date opts) = inl date ->
  let o := newNoteOpts opts date in
  let proceed notebooks' :=
    (value (finishCommandNew s notebook opts note), setNotebooks notebooks' s) in
  (forall notebooks',
     NewNote (notebooks s) notebook o = ((Some note, None), notebooks') ->
     value (executeCommandNew s args) = proceed notebooks') /\
  (forall n0 err name notebooks',
     NewNote (notebooks s) notebook o = ((n0, Some err), notebooks') ->
     errors_As_NoteExists err = Some name ->
     (FindNote_IncludePaths notebooks' notebook [name] = (Some note, None) ->
        value (executeCommandNew s args) = proceed notebooks') /\
     (forall found err',
        FindNote_IncludePaths notebooks' notebook [name] = (found, Some err') ->
        fst (value (executeCommandNew s args)) = inr err') /\
     (FindNote_IncludePaths notebooks' notebook [name] = (None, None) ->
        fst (value (executeCommandNew s args))
        = inr (ErrMsg "zk.new could not generate a new note"))) /\
  (InsertLinkAtLocation opts = None ->
     value (finishCommandNew s notebook opts note)
     = inl (filepath_Join (Notebook_Path notebook) (core.Note_Path note))) /\
  (forall notebooks1 n0 err name notebooks2,
     NewNote (notebooks s) notebook o = ((Some note, None), notebooks1) ->
     Open notebooks1 wd = inl notebook ->
     NewNote notebooks1 notebook o = ((n0, Some err), notebooks2) ->
     errors_As_NoteExists err = Some name ->
     FindNote_IncludePaths notebooks2 notebook [name] = (Some note, None) ->
     let first := value (executeCommandNew s args) in
     let second := value (executeCommandNew (snd first) args) in
     fst second = fst first /\ notebooks (snd second) = notebooks2).
Proof.
  intros Hargs Hopen Hdate o proceed. subst o proceed.
  assert (forall notebooks',
            NewNote (notebooks s) notebook (newNoteOpts opts date)
            = ((Some note, None), notebooks') ->
            value (executeCommandNew s args)
            = (value (finishCommandNew s notebook opts note),
               setNotebooks notebooks' s)) as Hcreated.
  { intros notebooks' Hnew.
    rewrite (executeCommandNew_value s args wd opts notebook date Hargs Hopen Hdate).
    rewrite (newOrExistingNote_created _ _ _ _ _ _ Hnew). reflexivity. }
  assert (forall s0 n0 err name notebooks',
            Open (notebooks s0) wd = inl notebook ->
            NewNote (notebooks s0) notebook (newNoteOpts opts date)
            = ((n0, Some err), notebooks') ->
            errors_As_NoteExists err = Some name ->
            FindNote_IncludePaths notebooks' notebook [name] = (Some note, None) ->
            value (executeCommandNew s0 args)
            = (value (finishCommandNew s0 notebook opts note),
               setNotebooks notebooks' s0)) as Hfound.
  { intros s0 n0 err name notebooks' Hopen0 Hnew Has Hfind.
    rewrite (executeCommandNew_value s0 args wd opts notebook date Hargs Hopen0 Hdate).
    destruct (newOrExistingNote_conflict _ _ _ _ _ _ _ _ Hnew Has) as [-> _].
    rewrite Hfind. reflexivity. }
  split; [exact Hcreated |]. split; [| split].
  - intros n0 err name notebooks' Hnew Has. split; [| split].
    + apply (Hfound s n0 err name notebooks' Hopen Hnew Has).
    + intros found err' Hfind.
      rewrite (executeCommandNew_value s args wd opts notebook date Hargs Hopen Hdate).
      destruct (newOrExistingNote_conflict _ _ _ _ _ _ _ _ Hnew Has) as [-> _].
      rewrite Hfind. destruct found; reflexivity.
    + intros Hfind.
      rewrite (executeCommandNew_value s args wd opts notebook date Hargs Hopen Hdate).
      destruct (newOrExistingNote_conflict _ _ _ _ _ _ _ _ Hnew Has) as [-> _].
      rewrite Hfind. reflexivity.
  - intros Hinsert. unfold finishCommandNew. rewrite Hinsert. msimpl.
    destruct (Edit_ opts); msimpl; reflexivity.
  - intros notebooks1 n0 err name notebooks2 Hnew1 Hopen1 Hnew2 Has Hfind first second.
    subst first second. rewrite (Hcreated notebooks1 Hnew1). simpl.
    rewrite (Hfound (setNotebooks notebooks1 s) n0 err name notebooks2
               Hopen1 Hnew2 Has Hfind).
    split; reflexivity.
Qed.

(** On the examples: the command run twice for the note "idea" returns the
    same path, and the second run adds no note. *)
Lemma C9_create_or_find_witness :
  let s := exampleServer "" core.LSPDiagnosticHint core.LSPDiagnosticError None in
  let first := value (@executeCommandNew toy s (exampleArgs "idea")) in
  let second := value (@executeCommandNew toy (snd first) (exampleArgs "idea")) in
  fst first = inl "/nb/notes/idea.md" /\
  fst second = inl "/nb/notes/idea.md" /\
  Toy.notes (notebooks (snd second)) = Toy.notes (notebooks (snd first)).
Proof.
  intros s first second.
  destruct (C9_create_or_find (H := toy) s (exampleArgs "idea") "/nb"
              {| Title := "idea"; Content := ""; Dir := "notes"; Group := "";
                 Template_ := ""; Extra := []; Date := ""; Edit_ := false;
                 InsertLinkAtLocation := None |}
              exampleNotebook 0
              {| core.Note_ID := 3; core.Note_Path := "notes/idea.md";
                 core.Note_Title := "idea"; core.RawContent := "" |}
              eq_refl eq_refl eq_refl)
    as (Hcreated & _ & Hpath & Htwice).
  destruct (Htwice (notebooks (snd first)) None
              (Wrap (ErrNoteExists "notes/idea.md") "new note") "notes/idea.md"
              (notebooks (snd first)) eq_refl eq_refl eq_refl eq_refl eq_refl)
    as [Hsame Hstore].
  fold first in Hsame. fold second in Hsame, Hstore.
  assert (fst first = inl "/nb/notes/idea.md") as Hfirst.
  { subst first. rewrite (Hcreated _ eq_refl). simpl. exact (Hpath eq_refl). }
  split; [exact Hfirst |]. split.
  - rewrite Hsame. exact Hfirst.
  - exact (f_equal Toy.notes Hstore).
Defined.

(** C9, as stated, fails: the note exists, the creation reports the
    conflict, the index is out of order, and the command fails with the
    error of the lookup. *)
Lemma C9_conflict_then_lookup_error :
  let err := ErrMsg "database is locked" in
  let s := exampleServer "" core.LSPDiagnosticHint core.LSPDiagnosticError
             (Some err) in
  let opts :=
    {| Title := "b"; Content := ""; Dir := "notes"; Group := "";
       Template_ := ""; Extra := []; Date := ""; Edit_ := false;
       InsertLinkAtLocation := None |} in
  (errors_As_NoteExists
     <$> snd (fst (@NewNote toy (notebooks s) exampleNotebook (newNoteOpts opts 0))))
  = Some (Some "notes/b.md") /\
  value (@executeCommandNew toy s (exampleArgs "b")) = (inr err, s) /\
  trace (@executeCommandNew toy s (exampleArgs "b"))
  = [@QFindNote toy exampleNotebook ["notes/b.md"]].
Proof. repeat split. Qed.

(** ** References *)

Section ReferenceFacts.

Context `{Collaborators}.










End ReferenceFacts.



(** The handler on the examples: the link under the cursor resolves to
    [notes/b.md], which [notes/c.md] mentions on its second line. *)
Example TextDocumentReferences_example :
  let s := exampleServer "[b](b.md)" core.LSPDiagnosticHint core.LSPDiagnosticError
             None in
  value (@TextDocumentReferences toy s
           {| Reference_URI := "file:///nb/notes/a.md";
              Reference_Position :=
                {| protocol.Line := 0; protocol.Character := 0 |} |})
  = Returns
      ([ {| protocol.URI := "file:///nb/notes/c.md";
            protocol.Range_ :=
              {| protocol.Start := {| protocol.Line := 1; protocol.Character := 0 |};
                 protocol.End := {| protocol.Line := 1; protocol.Character := 0 |}
              |} |} ], None).
Proof. vm_compute. reflexivity. Qed.

(** * Further properties of server.go *)

Lemma omap_length_le {A B : Type} (f : A -> option B) (l : list A) :
  (length (omap f l) <= length l)%nat.
Proof.
  induction l as [| x l IH]; [simpl; lia |].
  change (omap f (x :: l))
    with (match f x with Some y => y :: omap f l | None => omap f l end).
  destruct (f x); simpl; lia.
Qed.

(** ** The resolver *)

(** X1: the resolver never returns a note together with an error, and the
    URI of the note it returns is the one of the file at the path of the
    note under the root of the notebook. *)
Theorem noteForLink_note_xor_error `{Collaborators}
    (notebooks : NotebookStore) (link : documentLink) (doc : document)
    (notebook : Notebook) :
  match value (noteForLink notebooks link doc notebook) with
  | (Some _, Some _) => False
  | (Some target, None) =>
      URI target
      = pathToURI (filepath_Join (Notebook_Path notebook)
                     (core.Path (MinimalNote target)))
  | (None, _) => True
  end.
Proof.
  unfold noteForLink. msimpl.
  match goal with
  | |- context [value (if ?b then ?x else ?y)] =>
      destruct (value (if b then x else y)) as [[note |] [err |]]
  end; msimpl; auto.
Qed.

(** X2: resolving a link costs at most three queries of the index, and at
    most one when the link is not a wiki link. *)
Theorem noteForLink_query_budget `{Collaborators}
    (notebooks : NotebookStore) (link : documentLink) (doc : document)
    (notebook : Notebook) :
  (indexQueries (trace (noteForLink notebooks link doc notebook))
   <= if IsWikiLink link then 3 else 1)%nat.
Proof.
  unfold noteForLink, noteForHref, noteMatchingTitle, notebook_FindByHref,
    notebook_FindMatching, indexQueries.
  destruct (IsURL (Href link)); [| destruct (filepath_Rel _ _) as [path | ?]];
    msimpl;
    repeat match goal with
           | |- context [FindByHref ?a ?b ?c ?d] =>
               destruct (FindByHref a b c d) as [[?|] [?|]]; msimpl
           | |- context [FindMatching ?a ?b ?c] =>
               destruct (FindMatching a b c) as [[?|] [?|]]; msimpl
           | |- context [IsWikiLink link] => destruct (IsWikiLink link); msimpl
           | |- context [String.eqb (Href link) ""] =>
               destruct (String.eqb (Href link) ""); msimpl
           end; lia.
Qed.

(** X3: when the path that the href names cannot be made relative to the
    root of the notebook, the resolver returns that error, wrapped, without
    asking the index, for a wiki link as for any other. *)
Theorem noteForLink_outside_notebook `{Collaborators}
    (notebooks : NotebookStore) (link : documentLink) (doc : document)
    (notebook : Notebook) (err : error) :
  IsURL (Href link) = false ->
  filepath_Rel (Notebook_Path notebook)
    (filepath_Clean (filepath_Join (filepath_Dir (docPath doc)) (Href link)))
  = inr err ->
  noteForLink notebooks link doc notebook
  = ((None, Some (Wrap err ("failed to resolve href: " +:+ Href link))), []).
Proof.
  intros Hurl Hrel. unfold noteForLink, noteForHref. rewrite Hurl, Hrel.
  msimpl. reflexivity.
Qed.

(** On the examples: a wiki link in a document outside the notebook. *)
Lemma noteForLink_outside_notebook_witness :
  @noteForLink toy
    (exampleStore core.LSPDiagnosticHint core.LSPDiagnosticError None)
    (exampleLink "Some Title Words" false true) strayDocument exampleNotebook
  = ((None,
      Some (Wrap (ErrMsg "Rel: can't make path relative")
              "failed to resolve href: Some Title Words")), []).
Proof.
  apply (noteForLink_outside_notebook (H := toy)); reflexivity.
Defined.

(** X4: an error of the partial lookup, the second step, ends the
    resolution of a wiki link: it is returned, the titles are not asked,
    and, unlike an error of the first or of the third step, it is not
    logged. *)
Theorem noteForLink_step2_error `{Collaborators}
    (notebooks : NotebookStore) (link : documentLink) (doc : document)
    (notebook : Notebook) (note : option core.MinimalNote) (err : error) :
  value (noteForHref notebooks (Href link) doc notebook) = (None, None) ->
  IsWikiLink link = true ->
  FindByHref notebooks notebook (Href link) true = (note, Some err) ->
  noteForLink notebooks link doc notebook
  = ((None, Some err),
     trace (noteForHref notebooks (Href link) doc notebook)
       ++ [QFindByHref notebook (Href link) true]).
Proof.
  intros Hmiss Hwiki Hfind. rewrite (M_eta (noteForLink _ _ _ _)).
  unfold noteForLink, notebook_FindByHref. msimpl.
  rewrite Hmiss, Hwiki, Hfind. msimpl. destruct note; msimpl; reflexivity.
Qed.

(** On the examples, the index being out of order: a wiki link whose href
    is a URL skips the first step and fails in the second. *)
Lemma noteForLink_step2_error_witness :
  let err := ErrMsg "database is locked" in
  @noteForLink toy
    (exampleStore core.LSPDiagnosticHint core.LSPDiagnosticError (Some err))
    (exampleLink "https://example.com" false true) (exampleDocument "")
    exampleNotebook
  = ((None, Some err), [@QFindByHref toy exampleNotebook "https://example.com" true]).
Proof.
  intros err.
  exact (noteForLink_step2_error (H := toy)
           (exampleStore core.LSPDiagnosticHint core.LSPDiagnosticError (Some err))
           (exampleLink "https://example.com" false true) (exampleDocument "")
           exampleNotebook None err eq_refl eq_refl eq_refl).
Defined.

(** ** Hover, definition, document links *)

Section HandlerFacts.

Context `{Platform}.

(** The loop appends, in the order of the links, one entry per link that
    resolves. *)
Lemma resolvedLinks_value notebooks doc notebook links documentLinks :
  value (resolvedLinks notebooks doc notebook links documentLinks)
  = documentLinks
      ++ omap (fun link =>
                 match value (noteForLink notebooks link doc notebook) with
                 | (Some target, None) =>
                     Some {| DocumentLink_Range := Range link;
                             Target := URI target |}
                 | _ => None
                 end)
              links.
Proof.
  revert documentLinks.
  induction links as [| link links IH]; intros documentLinks; simpl.
  - msimpl. reflexivity.
  - msimpl. rewrite IH.
    destruct (value (noteForLink notebooks link doc notebook)) as [[target |] [err |]];
      simpl; rewrite <- ?app_assoc; reflexivity.
Qed.

End HandlerFacts.

(** X5: the document links of an open document whose links can be read and
    whose notebook opens are, in the order of the text, the links that
    resolve, each with its range and the URI of its target; a link that
    does not resolve, or whose resolution fails, is left out, and the
    request itself never fails for it. *)
Theorem TextDocumentDocumentLink_resolved_only `{Collaborators}
    (s : Server) (uri : string) (doc : document) (links : list documentLink)
    (notebook : Notebook) :
  documents_Get s uri = Some doc ->
  DocumentLinks doc = inl links ->
  notebookOf s doc = inl notebook ->
  value (TextDocumentDocumentLink s uri)
  = (omap (fun link =>
             match value (noteForLink (notebooks s) link doc notebook) with
             | (Some target, None) =>
                 Some {| DocumentLink_Range := Range link; Target := URI target |}
             | _ => None
             end)
          links,
     None) /\
  (length (fst (value (TextDocumentDocumentLink s uri))) <= length links)%nat.
Proof.
  intros Hdoc Hlinks Hnb.
  assert (value (TextDocumentDocumentLink s uri)
          = (omap (fun link =>
                     match value (noteForLink (notebooks s) link doc notebook) with
                     | (Some target, None) =>
                         Some {| DocumentLink_Range := Range link;
                                 Target := URI target |}
                     | _ => None
                     end)
                  links, None)) as Heq.
  { unfold TextDocumentDocumentLink. rewrite Hdoc, Hlinks, Hnb. msimpl.
    rewrite resolvedLinks_value. reflexivity. }
  split; [exact Heq |]. rewrite Heq. simpl. apply omap_length_le.
Qed.

(** On the examples, the index being out of order: the link of the
    document cannot be resolved, and the answer is no link and no error. *)
Lemma TextDocumentDocumentLink_resolved_only_witness :
  let s := exampleServer "[[missing]]" core.LSPDiagnosticHint
             core.LSPDiagnosticError (Some (ErrMsg "database is locked")) in
  value (@TextDocumentDocumentLink toy s "file:///nb/notes/a.md")
  = ([], None).
Proof.
  intros s.
  destruct (TextDocumentDocumentLink_resolved_only (H := toy) s
              "file:///nb/notes/a.md" (exampleDocument "[[missing]]")
              [exampleLink "missing" false true] exampleNotebook
              eq_refl eq_refl eq_refl) as [Heq _].
  rewrite Heq. reflexivity.
Defined.

(** X6: hover is definition followed by the reading of a file: where
    definition gives a location, hover gives the contents of the file at
    the canonical path of its URI, or the error of the conversion or of the
    reading; where definition gives nothing or an error, hover gives the
    same. *)
Theorem TextDocumentHover_reads_definition `{Platform}
    (s : Server) (uri : string) (pos : protocol.Position) :
  value (TextDocumentHover s uri pos)
  = match value (TextDocumentDefinition s uri pos) with
    | (Some location, None) =>
        match uriToPath (protocol.URI location) with
        | inr err => (None, Some err)
        | inl path =>
            match ioutil_ReadFile (fs_Canonical path) with
            | inr err => (None, Some err)
            | inl contents => (Some contents, None)
            end
        end
    | (_, err) => (None, err)
    end.
Proof.
  unfold TextDocumentHover, TextDocumentDefinition.
  destruct (documents_Get s uri) as [doc |]; [| reflexivity].
  destruct (DocumentLinkAt doc pos) as [[link |] | err]; try reflexivity.
  destruct (notebookOf s doc) as [notebook | err]; [| reflexivity].
  msimpl.
  destruct (value (noteForLink (notebooks s) link doc notebook))
    as [[target |] [err |]]; msimpl; try reflexivity.
  destruct (uriToPath (URI target)) as [path | err]; msimpl; [| reflexivity].
  destruct (ioutil_ReadFile (fs_Canonical path)); reflexivity.
Qed.

(** ** The command [zk.new], continued *)

(** X7: unless its arguments decode, its notebook opens and its date
    parses, the command fails without having touched the notebook and
    without a word to the index or to the client. *)
Theorem executeCommandNew_fails_early `{Collaborators}
    (s : Server) (args : list arg) :
  (forall wd opts notebook date,
     decodeArgs args = inl (wd, opts) ->
     Open (notebooks s) wd = inl notebook ->
     TimeFromNatural (Date opts) = inl date -> False) ->
  exists err, executeCommandNew s args = ((inr err, s), []).
Proof.
  intros Hnot. unfold executeCommandNew.
  destruct (decodeArgs args) as [[wd opts] | err] eqn:Hargs;
    [| eexists; reflexivity].
  destruct (Open (notebooks s) wd) as [notebook | err] eqn:Hopen;
    [| eexists; reflexivity].
  destruct (TimeFromNatural (Date opts)) as [date | err] eqn:Hdate;
    [| eexists; reflexivity].
  exfalso. exact (Hnot wd opts notebook date eq_refl Hopen Hdate).
Qed.

(** On the examples: a second argument that is no dictionary. *)
Lemma executeCommandNew_fails_early_witness :
  let s := exampleServer "" core.LSPDiagnosticHint core.LSPDiagnosticError None in
  exists err,
    @executeCommandNew toy s [@ArgString toy "/nb"; @ArgString toy "idea"]
    = ((inr err, s), []).
Proof.
  intros s. apply (executeCommandNew_fails_early (H := toy)).
  intros wd opts notebook date Hargs. discriminate Hargs.
Defined.

(** X8: an error of the creation that is no conflict is returned as it is:
    no note is looked up, nothing is sent to the client, and the notebook
    is left as the failed creation left it. *)
Theorem executeCommandNew_creation_error `{Collaborators}
    (s : Server) (args : list arg) (wd : string) (opts : cmdNewOpts)
    (notebook : Notebook) (date : Z) (note : option core.Note) (err : error)
    (notebooks' : NotebookStore) :
  decodeArgs args = inl (wd, opts) ->
  Open (notebooks s) wd = inl notebook ->
  TimeFromNatural (Date opts) = inl date ->
  NewNote (notebooks s) notebook (newNoteOpts opts date) = ((note, Some err), notebooks') ->
  errors_As_NoteExists err = None ->
  executeCommandNew s args = ((inr err, setNotebooks notebooks' s), []).
Proof.
  intros Hargs Hopen Hdate Hnew Has.
  unfold executeCommandNew, newOrExistingNote.
  rewrite Hargs, Hopen, Hdate, Hnew, Has. msimpl. reflexivity.
Qed.

(** On the examples, the disk being full. *)
Lemma executeCommandNew_creation_error_witness :
  @executeCommandNew toyDiskFull diskFullServer diskFullArgs
  = ((inr (ErrMsg "no space left on device"), diskFullServer), []).
Proof.
  exact (executeCommandNew_creation_error (H := toyDiskFull) diskFullServer
           diskFullArgs "/nb"
           {| Title := "idea"; Content := ""; Dir := "notes"; Group := "";
              Template_ := ""; Extra := []; Date := ""; Edit_ := false;
              InsertLinkAtLocation := None |}
           exampleNotebook 0 None (ErrMsg "no space left on device")
           (exampleStore core.LSPDiagnosticHint core.LSPDiagnosticError None)
           eq_refl eq_refl eq_refl eq_refl eq_refl).
Defined.

Lemma finishCommandNew_closed_document `{Collaborators}
    (s : Server) (notebook : Notebook) (opts : cmdNewOpts) (note : core.Note)
    (location : protocol.Location) :
  InsertLinkAtLocation opts = Some location ->
  documents_Get s (protocol.URI location) = None ->
  finishCommandNew s notebook opts note
  = (inr (ErrMsg ("can't insert link in " +:+ protocol.URI location)), []).
Proof.
  intros Hins Hdoc. unfold finishCommandNew. rewrite Hins, Hdoc. reflexivity.
Qed.

(** X9: the note is created before the link is inserted: when the document
    of [insertLinkAtLocation] is not open, the command fails, nothing is
    sent to the client, and the note stays created. *)
Theorem executeCommandNew_link_into_closed_document `{Collaborators}
    (s : Server) (args : list arg) (wd : string) (opts : cmdNewOpts)
    (notebook : Notebook) (date : Z) (note : core.Note)
    (notebooks' : NotebookStore) (location : protocol.Location) :
  decodeArgs args = inl (wd, opts) ->
  Open (notebooks s) wd = inl notebook ->
  TimeFromNatural (Date opts) = inl date ->
  NewNote (notebooks s) notebook (newNoteOpts opts date)
  = ((Some note, None), notebooks') ->
  InsertLinkAtLocation opts = Some location ->
  documents_Get s (protocol.URI location) = None ->
  executeCommandNew s args
  = ((inr (ErrMsg ("can't insert link in " +:+ protocol.URI location)),
      setNotebooks notebooks' s), []).
Proof.
  intros Hargs Hopen Hdate Hnew Hins Hdoc.
  unfold executeCommandNew.
  rewrite Hargs, Hopen, Hdate, (newOrExistingNote_created _ _ _ _ _ _ Hnew).
  unfold bind at 1. cbn [fst snd].
  rewrite (finishCommandNew_closed_document (setNotebooks notebooks' s) notebook
             opts note location Hins Hdoc).
  reflexivity.
Qed.

(** On the examples: the link is to go into a document that is not open;
    the command fails and the notebook has one more note. *)
Lemma executeCommandNew_link_into_closed_document_witness :
  let s := exampleServer "" core.LSPDiagnosticHint core.LSPDiagnosticError None in
  let args :=
    [@ArgString toy "/nb"; @ArgMap toy (exampleInsertOpts "file:///nb/other.md" true)] in
  fst (value (@executeCommandNew toy s args))
  = inr (ErrMsg "can't insert link in file:///nb/other.md") /\
  trace (@executeCommandNew toy s args) = [] /\
  length (Toy.notes (notebooks (snd (value (@executeCommandNew toy s args)))))
  = 3%nat.
Proof.
  intros s args.
  rewrite (executeCommandNew_link_into_closed_document (H := toy) s args "/nb"
             (exampleInsertOpts "file:///nb/other.md" true) exampleNotebook 0
             {| core.Note_ID := 3; core.Note_Path := "notes/idea.md";
                core.Note_Title := "idea"; core.RawContent := "" |}
             (snd (@NewNote toy (notebooks s) exampleNotebook
                     (newNoteOpts (exampleInsertOpts "file:///nb/other.md" true) 0)))
             {| protocol.URI := "file:///nb/other.md";
                protocol.Range_ := exampleRange |}
             eq_refl eq_refl eq_refl eq_refl eq_refl eq_refl).
  repeat split.
Defined.

Ltac mstep :=
  rewrite ?value_bind, ?trace_bind, ?value_ret, ?trace_ret, ?value_tell,
    ?trace_tell, ?app_nil_r, ?app_nil_l.

Section ClientCalls.

Context `{Collaborators}.



End ClientCalls.



(** ** The command [zk.index] *)

(** X11: [zk.index] reads its options only when it is given exactly two
    arguments.  When the notebook opens, the index is rebuilt with [force]
    set exactly when the arguments are the path and a dictionary whose key
    [force] holds a value that [toBool] takes for true; with three
    arguments or more the second one is not looked at, whatever it is. *)
Theorem executeCommandIndex_force `{Platform}
    (s : Server) (args : list arg) (path : string) (force : bool)
    (notebook : Notebook) :
  decodeIndexArgs args = inl (path, force) ->
  Open (notebooks s) path = inl notebook ->
  executeCommandIndex s args
  = (let '((stats, err), notebooks') := Index (notebooks s) notebook force in
     ((Some stats, err), setNotebooks notebooks' s)) /\
  (force = true <->
   exists options forceOption,
     args = [ArgString path; ArgMap options] /\
     JSONMap_lookup options "force" = Some forceOption /\
     toBool forceOption = true) /\
  (forall second third rest,
     args = ArgString path :: second :: third :: rest -> force = false).
Proof.
  intros Hargs Hopen. split; [| split].
  - unfold executeCommandIndex. rewrite Hargs, Hopen. reflexivity.
  - unfold decodeIndexArgs in Hargs.
    destruct args as [| [path0 | m | ] rest]; try discriminate.
    destruct rest as [| [? | options | ] [| third rest]]; try discriminate;
      injection Hargs as <- <-;
      try (split; [discriminate | intros (? & ? & Heq & _); discriminate]).
    split.
    + intros Hforce.
      destruct (JSONMap_lookup options "force") as [forceOption |] eqn:Hlook;
        [| discriminate].
      exists options, forceOption. auto.
    + intros (options' & forceOption & Heq & Hlook & Hbool).
      injection Heq as <-. rewrite Hlook. exact Hbool.
  - intros second third rest ->. unfold decodeIndexArgs in Hargs.
    destruct second; congruence.
Qed.

(** On the examples: the option [force] is read in a call with two
    arguments and ignored in a call with three. *)
Lemma executeCommandIndex_force_witness :
  let s := exampleServer "" core.LSPDiagnosticHint core.LSPDiagnosticError None in
  let options : @JSONMap toy :=
    {| Title := ""; Content := ""; Dir := ""; Group := ""; Template_ := "";
       Extra := [("force", "TRUE")]; Date := ""; Edit_ := false;
       InsertLinkAtLocation := None |} in
  @decodeIndexArgs toy toyPlatform [@ArgString toy "/nb"; @ArgMap toy options]
  = inl ("/nb", true) /\
  @decodeIndexArgs toy toyPlatform
    [@ArgString toy "/nb"; @ArgMap toy options; @ArgOther toy]
  = inl ("/nb", false) /\
  @executeCommandIndex toy toyPlatform s
    [@ArgString toy "/nb"; @ArgMap toy options; @ArgOther toy]
  = ((Some 2%nat, None), s).
Proof.
  intros s options. split; [reflexivity |]. split; [reflexivity |].
  destruct (executeCommandIndex_force (H0 := toyPlatform) s
              [@ArgString toy "/nb"; @ArgMap toy options; @ArgOther toy]
              "/nb" false exampleNotebook eq_refl eq_refl) as [Hrun _].
  rewrite Hrun. reflexivity.
Defined.

(** ** Diagnostics, continued *)

(** X12: asking twice is asking once: when the notebook of the document
    opens, a second request for the diagnostics of a document, made right
    after the first, changes nothing, whatever its delay. *)
Theorem refreshDiagnosticsOfDocument_twice `{Collaborators}
    (s : Server) (doc : loc) (d : document) (notebook : Notebook)
    (delay delay' : bool) :
  heap s !! doc = Some d ->
  notebookOf s d = inl notebook ->
  refreshDiagnosticsOfDocument (refreshDiagnosticsOfDocument s doc delay) doc delay'
  = refreshDiagnosticsOfDocument s doc delay.
Proof.
  intros Hd Hnb.
  destruct (NeedsRefreshDiagnostics d) eqn:Hflag.
  { (* the flag was set: both requests are dropped *)
    assert (forall dl, refreshDiagnosticsOfDocument s doc dl = s) as Hs.
    { intros dl. unfold refreshDiagnosticsOfDocument. rewrite Hd, Hflag.
      reflexivity. }
    rewrite !Hs. reflexivity. }
  destruct (core.isNone
              (core.WikiTitle (core.LSP_Diagnostics (Notebook_Config notebook)))
            && core.isNone
                 (core.DeadLink (core.LSP_Diagnostics (Notebook_Config notebook))))
    eqn:Hnone.
  { (* nothing is enabled: both requests return at once *)
    assert (forall dl, refreshDiagnosticsOfDocument s doc dl = s) as Hs.
    { intros dl. unfold refreshDiagnosticsOfDocument.
      rewrite Hd, Hflag, Hnb, Hnone. reflexivity. }
    rewrite !Hs. reflexivity. }
  (* the first request starts a cycle and sets the flag *)
  apply refresh_flag_set. unfold flagOf, refreshDiagnosticsOfDocument.
  rewrite Hd, Hflag, Hnb, Hnone. simpl. rewrite lookup_insert_eq. reflexivity.
Qed.

(** On the examples. *)
Lemma refreshDiagnosticsOfDocument_twice_witness :
  let s := exampleServer "[[missing]]" core.LSPDiagnosticHint
             core.LSPDiagnosticError None in
  @refreshDiagnosticsOfDocument toy (@refreshDiagnosticsOfDocument toy s 0%nat true)
    0%nat false
  = @refreshDiagnosticsOfDocument toy s 0%nat true.
Proof.
  intros s.
  exact (refreshDiagnosticsOfDocument_twice (H := toy) s 0%nat
           (exampleDocument "[[missing]]") exampleNotebook true false
           eq_refl eq_refl).
Defined.

(** X13: a request for the diagnostics of a document touches the flag of
    that document and nothing else in the heap: every document keeps its
    URI, its path and its text, and a document other than the one asked
    about is left as it was; the notebooks and the table of the open
    documents are left as they were, and the goroutines started before are
    still there, unchanged. *)
Theorem refreshDiagnosticsOfDocument_frame `{Collaborators}
    (s : Server) (doc : loc) (delay : bool) (doc' : loc) (d' : document) :
  heap (refreshDiagnosticsOfDocument s doc delay) !! doc' = Some d' ->
  (exists d0,
     heap s !! doc' = Some d0 /\
     docURI d' = docURI d0 /\ docPath d' = docPath d0 /\
     docContent d' = docContent d0 /\
     (doc' <> doc -> d' = d0)) /\
  notebooks (refreshDiagnosticsOfDocument s doc delay) = notebooks s /\
  documents (refreshDiagnosticsOfDocument s doc delay) = documents s /\
  goroutines s `prefix_of` goroutines (refreshDiagnosticsOfDocument s doc delay).
Proof.
  intros Hd'.
  assert (notebooks (refreshDiagnosticsOfDocument s doc delay) = notebooks s /\
          documents (refreshDiagnosticsOfDocument s doc delay) = documents s)
    as [Hnbs Hdocs].
  { unfold refreshDiagnosticsOfDocument.
    destruct (heap s !! doc) as [d |]; [| auto].
    destruct (NeedsRefreshDiagnostics d); [auto |].
    destruct (notebookOf s d); [| auto].
    destruct (core.isNone _ && core.isNone _); auto. }
  destruct (refresh_cases s doc delay)
    as [[Hheap Hgs] | (d0 & notebook0 & Hd0 & Hflag & Hnb0 & Hheap & Hgs & Hout)].
  - rewrite Hheap in Hd'. rewrite Hgs. repeat split; auto.
    exists d'. auto.
  - rewrite Hheap in Hd'. rewrite Hgs. repeat split; auto.
    + destruct (decide (doc = doc')) as [<- | Hne].
      * rewrite lookup_insert_eq in Hd'. injection Hd' as <-.
        exists d0. repeat split; auto. congruence.
      * rewrite lookup_insert_ne in Hd' by done. exists d'. auto.
    + apply prefix_app_r. reflexivity.
Qed.

(** On the examples: the document keeps its text when a cycle starts. *)
Lemma refreshDiagnosticsOfDocument_frame_witness :
  let s := exampleServer "[[missing]]" core.LSPDiagnosticHint
             core.LSPDiagnosticError None in
  exists d0,
    heap s !! 0%nat = Some d0 /\
    docContent d0 = "[[missing]]".
Proof.
  intros s.
  destruct (refreshDiagnosticsOfDocument_frame (H := toy) s 0%nat true 0%nat
              (setNeedsRefreshDiagnostics true (exampleDocument "[[missing]]"))
              eq_refl) as [(d0 & Hd0 & _ & _ & Hcontent & _) _].
  exists d0. split; [exact Hd0 |]. rewrite <- Hcontent. reflexivity.
Defined.

(** X14: every diagnostic of a document comes from the server ([Source] is
    "zk"), carries a severity other than "none", and sits on the range of
    a link of the document whose href is not a URL; there are at most as
    many diagnostics as links. *)
Theorem diagnosticsOfLinks_wellformed `{Collaborators}
    (notebooks : NotebookStore) (diagConfig : core.LSPDiagnosticConfig)
    (doc : document) (notebook : Notebook) (links : list documentLink)
    (d : Diagnostic) :
  d ∈ value (diagnosticsOfLinks notebooks diagConfig doc notebook links []) ->
  protocol.Source d = "zk" /\
  protocol.Severity d <> core.LSPDiagnosticNone /\
  (exists link,
     link ∈ links /\ IsURL (Href link) = false /\
     protocol.Diagnostic_Range d = Range link) /\
  (length (value (diagnosticsOfLinks notebooks diagConfig doc notebook links []))
   <= length links)%nat.
Proof.
  rewrite diagnosticsOfLinks_value. simpl. intros Hin.
  apply list_elem_of_omap in Hin as (link & Hlink & Hd).
  assert (IsURL (Href link) = false) as Hurl.
  { destruct (IsURL (Href link)) eqn:Hurl; [| reflexivity].
    rewrite (linkDiagnostic_URL _ _ _ _ _ Hurl) in Hd. discriminate. }
  pose proof (noteForLink_value notebooks link doc notebook) as Hshape.
  destruct (value (noteForLink notebooks link doc notebook))
    as [[target |] [err |]] eqn:Hres; try contradiction.
  - rewrite (linkDiagnostic_hit _ _ _ _ _ _ Hurl Hres) in Hd.
    destruct (HasTitle link); [discriminate |]. simpl in Hd.
    destruct (core.isNone (core.WikiTitle diagConfig)) eqn:Hsev; [discriminate |].
    injection Hd as <-. simpl.
    split; [reflexivity |]. split; [now apply isNone_false |].
    split; [eauto | apply omap_length_le].
  - rewrite (linkDiagnostic_error _ _ _ _ _ _ _ Hurl Hres) in Hd. discriminate.
  - rewrite (linkDiagnostic_miss _ _ _ _ _ Hurl Hres) in Hd.
    destruct (core.isNone (core.DeadLink diagConfig)) eqn:Hsev; [discriminate |].
    injection Hd as <-. simpl.
    split; [reflexivity |]. split; [now apply isNone_false |].
    split; [eauto | apply omap_length_le].
Qed.

(** On the examples: the diagnostic of the dead link [[missing]]. *)
Lemma diagnosticsOfLinks_wellformed_witness :
  let diagConfig := core.LSP_Diagnostics exampleNotebook in
  let link := exampleLink "missing" false true in
  protocol.Severity (deadLinkDiagnostic diagConfig link) <> core.LSPDiagnosticNone /\
  exists link',
    link' ∈ [link] /\ @IsURL toy (Href link') = false /\
    protocol.Diagnostic_Range (deadLinkDiagnostic diagConfig link) = Range link'.
Proof.
  intros diagConfig link.
  destruct (diagnosticsOfLinks_wellformed (H := toy)
              (exampleStore core.LSPDiagnosticHint core.LSPDiagnosticError None)
              diagConfig (exampleDocument "[[missing]]") exampleNotebook [link]
              (deadLinkDiagnostic diagConfig link))
    as (_ & Hsev & Hlink & _).
  - left.
  - split; [exact Hsev | exact Hlink].
Defined.

(** X15: a cycle reads the document when it computes, not when it is asked
    for: an edit made while the cycle is pending is the text whose links
    the cycle resolves, and the cycle leaves the flag clear. *)
Theorem cycle_reads_latest_text `{Collaborators}
    (s : Server) (i : nat) (g : goroutine) (d : document) (text : string) :
  goroutines s !! i = Some g ->
  g_phase g = Spawned ->
  heap s !! g_doc g = Some d ->
  exists s',
    run s [Edit (g_doc g) text; Wake i; Finish i] = Some s' /\
    output s'
    = output s
        ++ trace (computeDiagnostics (notebooks s) (g_diagConfig g)
                    (setNeedsRefreshDiagnostics false (setContent text d))
                    (g_notebook g)) /\
    heap s' !! g_doc g
    = Some (setNeedsRefreshDiagnostics false (setContent text d)).
Proof.
  intros Hg Hphase Hd.
  assert (i < length (goroutines s))%nat as Hi by (eapply lookup_lt_Some, Hg).
  eexists. simpl. rewrite Hd. unfold goroutine_wake. simpl.
  rewrite Hg, Hphase, lookup_insert_eq. simpl.
  unfold goroutine_compute. simpl.
  rewrite (list_lookup_insert_eq _ _ _ Hi). simpl.
  rewrite lookup_insert_eq.
  split; [reflexivity |]. simpl. split; [reflexivity |].
  apply lookup_insert_eq.
Qed.

(** On the examples: the document has no link when the cycle is asked for
    and a dead link when the cycle computes. *)
Lemma cycle_reads_latest_text_witness :
  let s := @refreshDiagnosticsOfDocument toy
             (exampleServer "no link here" core.LSPDiagnosticHint
                core.LSPDiagnosticError None) 0%nat true in
  exists s',
    @run toy s [Edit 0%nat "[[missing]]"; Wake 0%nat; Finish 0%nat] = Some s' /\
    last (output s')
    = Some (@PublishDiagnostics toy "file:///nb/notes/a.md"
              [deadLinkDiagnostic (core.LSP_Diagnostics exampleNotebook)
                 (exampleLink "missing" false true)]).
Proof.
  intros s.
  destruct (cycle_reads_latest_text (H := toy) s 0%nat
              {| g_doc := 0%nat;
                 g_notebook := exampleNotebook;
                 g_diagConfig := core.LSP_Diagnostics exampleNotebook;
                 g_delay := true;
                 g_phase := Spawned |}
              (setNeedsRefreshDiagnostics true (exampleDocument "no link here"))
              "[[missing]]" eq_refl eq_refl eq_refl)
    as (s' & Hrun & Hout & _).
  exists s'. split; [exact Hrun |]. rewrite Hout. reflexivity.
Defined.

(** ** Completion, continued *)

Section CompletionItemFacts.

Context `{Collaborators}.

(** What an item that could be built is made of. *)
Lemma newCompletionItem_shape notebook note doc pos linkFormatter templates item :
  newCompletionItem notebook note doc pos linkFormatter templates = inl item ->
  exists label filterText detail edit,
    let label' := if String.eqb label "" then core.Path note else label in
    item
    = {| protocol.Label := label';
         protocol.Data := filepath_Join (Notebook_Path notebook) (core.Path note);
         protocol.FilterText :=
           match filterText with
           | Some f =>
               if String.eqb f "" then Some (label' +:+ " " +:+ core.Path note)
               else Some f
           | None => Some (label' +:+ " " +:+ core.Path note)
           end;
         protocol.Detail := detail;
         protocol.InsertText := None;
         protocol.TextEdit_ := Some edit;
         protocol.AdditionalTextEdits :=
           [ {| protocol.NewText := "";
                protocol.TextEdit_Range := rangeFromPosition pos (-2) 0 |} ] |}.
Proof.
  unfold newCompletionItem.
  destruct (newCompletionItemRenderContext _ _ _) as [ctx | ?]; [| discriminate].
  destruct (match Label templates with Some _ => _ | None => _ end)
    as [label | ?]; [| discriminate].
  destruct (match FilterText templates with Some _ => _ | None => _ end)
    as [filterText | ?]; [| discriminate].
  destruct (match Detail templates with Some _ => _ | None => _ end)
    as [detail | ?]; [| discriminate].
  destruct (newTextEditForLink notebook note doc pos linkFormatter)
    as [edit | ?]; [| discriminate].
  intros [= <-]. exists label, filterText, detail, edit. reflexivity.
Qed.

(** Every note gives an item or a line in the log, and nothing else. *)
Lemma completionItems_count notebook doc pos linkFormatter templates notes items :
  let m := completionItems notebook doc pos linkFormatter templates notes items in
  (length (value m) + length (List.filter isLogErr (trace m))
   = length items + length notes)%nat /\
  List.filter isIndexQuery (trace m) = [].
Proof.
  cbv zeta. revert items.
  induction notes as [| note notes IH]; intros items; simpl.
  - mstep. simpl. split; [lia | reflexivity].
  - destruct (newCompletionItem notebook note doc pos linkFormatter templates)
      as [item | err].
    + destruct (IH (items ++ [item])) as [Hcount Hq].
      rewrite length_app in Hcount. simpl in Hcount. split; [lia | exact Hq].
    + destruct (IH items) as [Hcount Hq]. mstep. simpl.
      split; [lia | exact Hq].
Qed.

Lemma append_space_nonempty (a b : string) : a +:+ " " +:+ b <> "".
Proof. destruct a; discriminate. Qed.

End CompletionItemFacts.

(** X16: a note whose item cannot be built costs the list that one item
    and a line in the log, nothing more: when the formatter, the templates
    and the notes are there, the list is returned without error, the items
    and the logged errors together are as many as the notes, and the index
    has been asked once. *)
Theorem buildLinkCompletionList_accounting `{Collaborators}
    (notebooks : NotebookStore) (doc : document) (notebook : Notebook)
    (params : CompletionParams) (linkFormatter : LinkFormatter)
    (templates : completionTemplates Template) (notes : list core.MinimalNote) :
  newLinkFormatter doc notebook params = inl linkFormatter ->
  newCompletionTemplates (core.LSP_Completion_Note (Notebook_Config notebook))
  = inl templates ->
  FindMinimalNotes notebooks notebook = inl notes ->
  let m := buildLinkCompletionList notebooks doc notebook params in
  exists items,
    value m = (Some items, None) /\
    (length items + length (List.filter isLogErr (trace m)) = length notes)%nat /\
    indexQueries (trace m) = 1%nat.
Proof.
  intros Hlf Ht Hnotes m. subst m. unfold buildLinkCompletionList, indexQueries.
  rewrite Hlf, Ht. mstep. rewrite Hnotes. mstep.
  destruct (completionItems_count notebook doc (Position params) linkFormatter
              templates notes []) as [Hcount Hq].
  eexists. split; [reflexivity |].
  rewrite !List.filter_app, Hq. simpl. split; [exact Hcount | reflexivity].
Qed.

(** On the examples: two notes, two items, an empty log. *)
Lemma buildLinkCompletionList_accounting_witness :
  let params :=
    {| TextDocument_URI := "file:///nb/notes/a.md";
       Position := {| protocol.Line := 0; protocol.Character := 2 |} |} in
  let m := @buildLinkCompletionList toy
             (exampleStore core.LSPDiagnosticHint core.LSPDiagnosticError None)
             (exampleDocument "[[]]") exampleNotebook params in
  exists items,
    value m = (Some items, None) /\
    (length items + length (List.filter (@isLogErr toy) (trace m)) = 2)%nat /\
    @indexQueries toy (trace m) = 1%nat.
Proof.
  intros params m.
  exact (buildLinkCompletionList_accounting (H := toy)
           (exampleStore core.LSPDiagnosticHint core.LSPDiagnosticError None)
           (exampleDocument "[[]]") exampleNotebook params
           (fun '(n, _, _) => inl ("[[" +:+ core.Path n +:+ "]]"))
           {| Label := None; FilterText := None; Detail := None |}
           (Toy.minimal <$> exampleNotes) eq_refl eq_refl eq_refl).
Defined.

(** X17: no item of the link completions is without a text to filter on,
    and none is without a label as long as no note has an empty path: the
    label falls back on the path of the note, the filter text on the label
    and the path. *)
Theorem buildLinkCompletionList_labels `{Collaborators}
    (notebooks : NotebookStore) (doc : document) (notebook : Notebook)
    (params : CompletionParams) (notes : list core.MinimalNote)
    (items : list protocol.CompletionItem) (item : protocol.CompletionItem) :
  FindMinimalNotes notebooks notebook = inl notes ->
  (forall note, note ∈ notes -> core.Path note <> "") ->
  value (buildLinkCompletionList notebooks doc notebook params) = (Some items, None) ->
  item ∈ items ->
  protocol.Label item <> "" /\
  exists filterText,
    protocol.FilterText item = Some filterText /\ filterText <> "".
Proof.
  intros Hnotes Hpaths Hlist Hin.
  unfold buildLinkCompletionList in Hlist.
  destruct (newLinkFormatter doc notebook params) as [linkFormatter | ?];
    [| discriminate Hlist].
  destruct (newCompletionTemplates _) as [templates | ?]; [| discriminate Hlist].
  revert Hlist. mstep. rewrite Hnotes. mstep. intros [= <-].
  apply completionItems_elem in Hin as [Hin | (note & Hnote & Hitem)];
    [inversion Hin |].
  apply newCompletionItem_shape in Hitem as (label & filterText & detail & edit & ->).
  simpl. split.
  - destruct (String.eqb label "") eqn:Hlabel.
    + now apply Hpaths.
    + now apply String.eqb_neq.
  - destruct filterText as [f |].
    + destruct (String.eqb f "") eqn:Hf.
      * eexists. split; [reflexivity | apply append_space_nonempty].
      * exists f. split; [reflexivity | now apply String.eqb_neq].
    + eexists. split; [reflexivity | apply append_space_nonempty].
Qed.

(** On the examples: the first item. *)
Lemma buildLinkCompletionList_labels_witness :
  let params :=
    {| TextDocument_URI := "file:///nb/notes/a.md";
       Position := {| protocol.Line := 0; protocol.Character := 2 |} |} in
  let notebooks := exampleStore core.LSPDiagnosticHint core.LSPDiagnosticError None in
  let items :=
    default [] (fst (value (@buildLinkCompletionList toy notebooks
                              (exampleDocument "[[]]") exampleNotebook params))) in
  match head items with
  | Some item => protocol.Label item <> ""
  | None => False
  end.
Proof.
  intros params notebooks items.
  destruct (head items) as [item |] eqn:Hhead; [| discriminate Hhead].
  apply (buildLinkCompletionList_labels (H := toy) notebooks
           (exampleDocument "[[]]") exampleNotebook params
           (Toy.minimal <$> exampleNotes) items item).
  - reflexivity.
  - intros note Hnote.
    repeat (apply elem_of_cons in Hnote as [-> | Hnote]; [discriminate |]).
    inversion Hnote.
  - reflexivity.
  - apply head_Some_elem_of, Hhead.
Defined.

(** X18: every item of the link completions carries one more edit, which
    deletes: its text is empty, it ends at the cursor and starts on the
    same line two columns before it, in [uint32] arithmetic: exactly two
    columns before when the cursor is at column 2 or further, and wrapped
    around to the end of the [uint32] range when it is at column 0 or 1. *)
Theorem buildLinkCompletionList_trigger_edit `{Collaborators}
    (notebooks : NotebookStore) (doc : document) (notebook : Notebook)
    (params : CompletionParams) (items : list protocol.CompletionItem)
    (item : protocol.CompletionItem) :
  let pos := Position params in
  uint32_ok (protocol.Character pos) ->
  value (buildLinkCompletionList notebooks doc notebook params) = (Some items, None) ->
  item ∈ items ->
  exists edit,
    protocol.AdditionalTextEdits item = [edit] /\
    protocol.NewText edit = "" /\
    protocol.End (protocol.TextEdit_Range edit) = pos /\
    protocol.Line (protocol.Start (protocol.TextEdit_Range edit)) = protocol.Line pos /\
    (2 <= protocol.Character pos ->
       protocol.Character (protocol.Start (protocol.TextEdit_Range edit))
       = protocol.Character pos - 2) /\
    (protocol.Character pos < 2 ->
       protocol.Character (protocol.Start (protocol.TextEdit_Range edit))
       = protocol.Character pos + 2 ^ 32 - 2).
Proof.
  intros pos Hpos Hlist Hin. subst pos. unfold uint32_ok in Hpos.
  unfold buildLinkCompletionList in Hlist.
  destruct (newLinkFormatter doc notebook params) as [linkFormatter | ?];
    [| discriminate Hlist].
  destruct (newCompletionTemplates _) as [templates | ?]; [| discriminate Hlist].
  revert Hlist. mstep.
  destruct (FindMinimalNotes notebooks notebook) as [notes | ?]; mstep;
    [| discriminate].
  intros [= <-].
  apply completionItems_elem in Hin as [Hin | (note & Hnote & Hitem)];
    [inversion Hin |].
  apply newCompletionItem_shape in Hitem as (label & filterText & detail & edit & ->).
  eexists. split; [reflexivity |]. cbn [protocol.NewText protocol.TextEdit_Range].
  unfold rangeFromPosition.
  cbn [protocol.Start protocol.End].
  split; [reflexivity |]. split; [now apply offsetPos_0 |].
  unfold offsetPos. change (-2 <? 0) with true. cbn [protocol.Line protocol.Character].
  unfold protocol.uint32_wrap. change (- -2) with 2. change (2 mod 2 ^ 32) with 2.
  split; [reflexivity |]. split; intros Hcol.
  - apply Z.mod_small. lia.
  - rewrite <- (Z.mod_add _ 1) by lia. rewrite Z.mod_small by lia. lia.
Qed.

(** On the examples: the cursor at column 2. *)
Lemma buildLinkCompletionList_trigger_edit_witness :
  let params :=
    {| TextDocument_URI := "file:///nb/notes/a.md";
       Position := {| protocol.Line := 0; protocol.Character := 2 |} |} in
  let notebooks := exampleStore core.LSPDiagnosticHint core.LSPDiagnosticError None in
  let items :=
    default [] (fst (value (@buildLinkCompletionList toy notebooks
                              (exampleDocument "[[]]") exampleNotebook params))) in
  match head items with
  | Some item =>
      exists edit,
        protocol.AdditionalTextEdits item = [edit] /\
        protocol.Character (protocol.Start (protocol.TextEdit_Range edit)) = 0
  | None => False
  end.
Proof.
  intros params notebooks items.
  destruct (head items) as [item |] eqn:Hhead; [| discriminate Hhead].
  destruct (buildLinkCompletionList_trigger_edit (H := toy) notebooks
              (exampleDocument "[[]]") exampleNotebook params items item)
    as (edit & Hedits & _ & _ & _ & Hstart & _).
  - unfold uint32_ok. simpl. lia.
  - reflexivity.
  - apply head_Some_elem_of, Hhead.
  - exists edit. split; [exact Hedits |]. apply Hstart. simpl. lia.
Defined.

(** ** Tags *)

Section TagFacts.

Lemma prefix_space (c : ascii) (s : string) :
  String.prefix " " (String c s) = Ascii.eqb c space.
Proof.
  change (String.prefix " " (String c s))
    with (if ascii_dec " "%char c then String.prefix "" s else false).
  destruct (ascii_dec " "%char c) as [<- | Hne].
  - destruct s; reflexivity.
  - symmetry. apply Ascii.eqb_neq. intros ->. now apply Hne.
Qed.

(** A text without a space has no bare space. *)
Lemma bareSpace_no_space (s : string) (escaped : bool) :
  strings_Contains s " " = false -> bareSpace escaped s = false.
Proof.
  revert escaped. induction s as [| c s IH]; intros escaped; [reflexivity |].
  cbn [strings_Contains bareSpace]. rewrite prefix_space.
  intros [Hc Hs]%orb_false_elim. rewrite Hc. simpl. now apply IH.
Qed.

(** Once every space is replaced by a backslash and a space, no space is
    bare. *)
Lemma bareSpace_ReplaceAll (s : string) (escaped : bool) :
  bareSpace escaped (strings_ReplaceAll s space "\ ") = false.
Proof.
  revert escaped. induction s as [| c s IH]; intros escaped; [reflexivity |].
  cbn [strings_ReplaceAll]. destruct (Ascii.eqb c space) eqn:Hc.
  - change ("\ " +:+ strings_ReplaceAll s space "\ ")
      with (String "\"%char (String space (strings_ReplaceAll s space "\ "))).
    cbn [bareSpace]. rewrite Ascii.eqb_refl.
    change (Ascii.eqb "\"%char space) with false.
    change (Ascii.eqb space "\"%char) with false.
    simpl. apply IH.
  - change (String c "" +:+ strings_ReplaceAll s space "\ ")
      with (String c (strings_ReplaceAll s space "\ ")).
    cbn [bareSpace]. rewrite Hc. simpl. apply IH.
Qed.

End TagFacts.

(** X19: the text inserted for a hashtag.  A name without a space is
    inserted as it is.  When multi-word tags are disabled, every space of
    the inserted text follows a backslash, so that the text stays one
    tag. *)
Theorem buildInsertForTag_hashtag (name : string) (config : core.Config) :
  (strings_Contains name " " = false -> buildInsertForTag name "#" config = name) /\
  (core.MultiwordTags (core.Format_Markdown config) = false ->
   bareSpace false (buildInsertForTag name "#" config) = false).
Proof.
  unfold buildInsertForTag. simpl. split.
  - intros ->. reflexivity.
  - intros ->. destruct (strings_Contains name " ") eqn:Hspace.
    + apply bareSpace_ReplaceAll.
    + now apply bareSpace_no_space.
Qed.

(** On the examples: the tag "to do". *)
Lemma buildInsertForTag_hashtag_witness :
  let config := exampleConfig core.LSPDiagnosticHint core.LSPDiagnosticError in
  buildInsertForTag "todo" "#" config = "todo" /\
  buildInsertForTag "to do" "#" config = "to\ do" /\
  bareSpace false (buildInsertForTag "to do" "#" config) = false.
Proof.
  intros config.
  destruct (buildInsertForTag_hashtag "todo" config) as [Hsame _].
  destruct (buildInsertForTag_hashtag "to do" config) as [_ Hescaped].
  split; [apply Hsame; reflexivity |]. split; [reflexivity |].
  apply Hescaped. reflexivity.
Defined.

(** ** Ranges *)

Section RangeFacts.

Context `{Collaborators}.

(** The column of a moved position, whatever the sign of the offset. *)
Lemma offsetPos_Character pos offset :
  protocol.Character (offsetPos pos offset)
  = (protocol.Character pos + offset) mod 2 ^ 32.
Proof.
  unfold offsetPos, protocol.uint32_wrap.
  destruct (offset <? 0); cbn [protocol.Character].
  - rewrite Zminus_mod_idemp_r. f_equal. lia.
  - now rewrite Zplus_mod_idemp_r.
Qed.

Lemma Position_eq (p q : protocol.Position) :
  protocol.Line p = protocol.Line q ->
  protocol.Character p = protocol.Character q ->
  p = q.
Proof. destruct p, q. simpl. congruence. Qed.

Lemma offsetPos_Line pos offset :
  protocol.Line (offsetPos pos offset) = protocol.Line pos.
Proof. unfold offsetPos. destruct (offset <? 0); reflexivity. Qed.

End RangeFacts.

(** X20: [rangeFromPosition] stays on the line of the position and gives
    columns that a [uint32] can hold; moving its start back by the start
    offset gives the position again; and the range is empty exactly when
    the two offsets are equal modulo 2^32. *)
Theorem rangeFromPosition_range
    (pos : protocol.Position) (startOffset endOffset : Z) :
  uint32_ok (protocol.Character pos) ->
  let r := rangeFromPosition pos startOffset endOffset in
  protocol.Line (protocol.Start r) = protocol.Line pos /\
  protocol.Line (protocol.End r) = protocol.Line pos /\
  uint32_ok (protocol.Character (protocol.Start r)) /\
  uint32_ok (protocol.Character (protocol.End r)) /\
  protocol.Start (rangeFromPosition (protocol.Start r) (- startOffset) 0) = pos /\
  (isRangeEmpty r = true <-> (startOffset - endOffset) mod 2 ^ 32 = 0).
Proof.
  intros Hpos r. subst r. unfold uint32_ok in *. unfold rangeFromPosition.
  cbn [protocol.Start protocol.End].
  rewrite !offsetPos_Line, !offsetPos_Character.
  split; [reflexivity |]. split; [reflexivity |].
  split; [apply Z.mod_pos_bound; lia |]. split; [apply Z.mod_pos_bound; lia |].
  split.
  - apply Position_eq.
    + now rewrite !offsetPos_Line.
    + rewrite !offsetPos_Character, Zplus_mod_idemp_l.
      replace (protocol.Character pos + startOffset + - startOffset)
        with (protocol.Character pos) by lia.
      apply Z.mod_small. lia.
  - unfold isRangeEmpty. cbn [protocol.Start protocol.End].
    rewrite !offsetPos_Line, !offsetPos_Character, Z.eqb_refl. simpl.
    rewrite Z.eqb_eq, Z.cong_iff_0.
    replace (protocol.Character pos + startOffset
             - (protocol.Character pos + endOffset))
      with (startOffset - endOffset) by lia.
    reflexivity.
Qed.

(** On the examples: the range of the edit that deletes the trigger. *)
Lemma rangeFromPosition_range_witness :
  let pos := {| protocol.Line := 3; protocol.Character := 5 |} in
  protocol.Start (rangeFromPosition
                    (protocol.Start (rangeFromPosition pos (-2) 0)) (- -2) 0)
  = pos /\
  isRangeEmpty (rangeFromPosition pos (-2) 0) = false.
Proof.
  intros pos.
  destruct (rangeFromPosition_range pos (-2) 0)
    as (_ & _ & _ & _ & Hback & Hempty).
  - unfold uint32_ok. simpl. lia.
  - split; [exact Hback |].
    destruct (isRangeEmpty (rangeFromPosition pos (-2) 0)); [| reflexivity].
    pose proof (proj1 Hempty eq_refl) as Hzero. vm_compute in Hzero.
    discriminate Hzero.
Defined.

(** ** Code actions *)

(** X21: the code actions are commands that [zk.new] understands.  Nothing
    is offered for an empty range.  For an open document, and a JSON
    encoding that [unmarshalJSON] decodes back, every action offered
    carries the command [zk.new] with arguments that [executeCommandNew]
    decodes to the directory of the document as working directory and to
    options whose title is the selected text, whose link location is the
    selection, and whose directory is that of the document or the top of
    the notebook; at most two actions are offered. *)
Theorem TextDocumentCodeAction_commands `{Platform}
    (s : Server) (uri : string) (range : protocol.Range) (doc : document)
    (action : CodeAction) :
  documents_Get s uri = Some doc ->
  (forall opts jsonOpts,
     marshalJSON opts = inl jsonOpts -> unmarshalJSON jsonOpts = inl opts) ->
  action ∈ TextDocumentCodeAction s uri range ->
  isRangeEmpty range = false /\
  (length (TextDocumentCodeAction s uri range) <= 2)%nat /\
  exists command opts,
    CodeAction_Command action = Some command /\
    Command_Command command = cmdNew /\
    decodeArgs (Arguments command) = inl (filepath_Dir (docPath doc), opts) /\
    Title opts = ContentAtRange doc range /\
    InsertLinkAtLocation opts
    = Some {| protocol.URI := uri; protocol.Range_ := range |} /\
    (Dir opts = filepath_Dir (docPath doc) \/ Dir opts = "").
Proof.
  intros Hdoc Hjson. unfold TextDocumentCodeAction.
  destruct (isRangeEmpty range); [intros Hin; inversion Hin |].
  rewrite Hdoc. unfold addAction.
  destruct (marshalJSON _) as [json1 | ?] eqn:H1;
    destruct (marshalJSON _) as [json2 | ?] eqn:H2 in |- *;
    simpl; intros Hin;
    repeat (apply elem_of_cons in Hin as [-> | Hin]);
    try (inversion Hin; fail);
    (split; [reflexivity |]); (split; [lia |]);
    eexists; eexists; simpl;
    (split; [reflexivity |]); (split; [reflexivity |]);
    unfold decodeArgs; cbn [Arguments];
    try (rewrite (Hjson _ _ H1)); try (rewrite (Hjson _ _ H2));
    (split; [reflexivity |]); simpl; auto.
Qed.

(** On the examples: a selection in the open document. *)
Lemma TextDocumentCodeAction_commands_witness :
  let s := exampleServer "an idea" core.LSPDiagnosticHint core.LSPDiagnosticError
             None in
  match head (@TextDocumentCodeAction toy toyPlatform s "file:///nb/notes/a.md"
                exampleRange) with
  | Some action =>
      exists command opts,
        CodeAction_Command action = Some command /\
        @decodeArgs toy (Arguments command) = inl ("/nb/notes", opts) /\
        InsertLinkAtLocation opts
        = Some {| protocol.URI := "file:///nb/notes/a.md";
                  protocol.Range_ := exampleRange |}
  | None => False
  end.
Proof.
  intros s.
  destruct (head (@TextDocumentCodeAction toy toyPlatform s
                    "file:///nb/notes/a.md" exampleRange))
    as [action |] eqn:Hhead; [| discriminate Hhead].
  destruct (TextDocumentCodeAction_commands (H0 := toyPlatform) s
              "file:///nb/notes/a.md" exampleRange (exampleDocument "an idea")
              action eq_refl)
    as (_ & _ & command & opts & Hcommand & _ & Hargs & _ & Hinsert & _).
  - intros opts jsonOpts Hm. injection Hm as <-. reflexivity.
  - apply head_Some_elem_of, Hhead.
  - exists command, opts. auto.
Defined.

(** ** Changes *)

Section ChangeFacts.

Context `{Platform}.

(** A change to a document whose flag is set changes its text and nothing
    else. *)
Lemma TextDocumentDidChange_pending s uri doc d changes :
  documents s !! uri = Some doc ->
  heap s !! doc = Some d ->
  NeedsRefreshDiagnostics d = true ->
  TextDocumentDidChange s uri changes
  = setHeap (<[doc := setContent (ApplyChanges (docContent d) changes) d]> (heap s)) s.
Proof.
  intros Huri Hd Hflag. unfold TextDocumentDidChange. rewrite Huri, Hd.
  apply refresh_flag_set. unfold flagOf. simpl. rewrite lookup_insert_eq.
  exact Hflag.
Qed.

Lemma TextDocumentDidChange_burst_pending batches :
  forall s uri doc d,
    documents s !! uri = Some doc ->
    heap s !! doc = Some d ->
    NeedsRefreshDiagnostics d = true ->
    let s' := fold_left (fun s changes => TextDocumentDidChange s uri changes)
                batches s in
    goroutines s' = goroutines s /\
    output s' = output s /\
    heap s' !! doc
    = Some {| docURI := docURI d;
              docPath := docPath d;
              docContent := fold_left ApplyChanges batches (docContent d);
              NeedsRefreshDiagnostics := true |}.
Proof.
  induction batches as [| changes batches IH]; intros s uri doc d Huri Hd Hflag;
    cbn [fold_left].
  - repeat split; auto. rewrite Hd. destruct d. simpl in *. congruence.
  - rewrite (TextDocumentDidChange_pending s uri doc d changes Huri Hd Hflag).
    specialize (IH (setHeap (<[doc := setContent (ApplyChanges (docContent d) changes) d]>
                               (heap s)) s)
                  uri doc (setContent (ApplyChanges (docContent d) changes) d)
                  Huri (lookup_insert_eq _ _ _) Hflag).
    exact IH.
Qed.

End ChangeFacts.

(** X22: a burst of changes starts one cycle.  On a document that is open,
    whose flag is clear, whose notebook opens and has a diagnostic enabled,
    any number of change notifications, one at least, leave exactly one
    more goroutine, started with the delay; the text of the document is the
    result of all the changes, applied in the order received; nothing is
    logged or published by the notifications themselves.  A change to a
    document that is not open changes nothing. *)
Theorem TextDocumentDidChange_burst `{Platform}
    (s : Server) (uri : string) (doc : loc) (d : document) (notebook : Notebook)
    (changes : list ContentChange) (batches : list (list ContentChange)) :
  documents s !! uri = Some doc ->
  heap s !! doc = Some d ->
  NeedsRefreshDiagnostics d = false ->
  notebookOf s d = inl notebook ->
  core.isNone (core.WikiTitle (core.LSP_Diagnostics (Notebook_Config notebook)))
  && core.isNone (core.DeadLink (core.LSP_Diagnostics (Notebook_Config notebook)))
  = false ->
  let s' := fold_left (fun s changes => TextDocumentDidChange s uri changes)
              (changes :: batches) s in
  goroutines s'
  = goroutines s ++
      [ {| g_doc := doc;
           g_notebook := notebook;
           g_diagConfig := core.LSP_Diagnostics (Notebook_Config notebook);
           g_delay := true;
           g_phase := Spawned |} ] /\
  output s' = output s /\
  heap s' !! doc
  = Some {| docURI := docURI d;
            docPath := docPath d;
            docContent := fold_left ApplyChanges (changes :: batches) (docContent d);
            NeedsRefreshDiagnostics := true |} /\
  (forall uri' changes',
     documents s !! uri' = None -> TextDocumentDidChange s uri' changes' = s).
Proof.
  intros Huri Hd Hflag Hnb Hcfg s'. subst s'. cbn [fold_left].
  assert (TextDocumentDidChange s uri changes
          = {| notebooks := notebooks s;
               documents := documents s;
               heap :=
                 <[doc := setNeedsRefreshDiagnostics true
                            (setContent (ApplyChanges (docContent d) changes) d)]>
                   (<[doc := setContent (ApplyChanges (docContent d) changes) d]>
                      (heap s));
               goroutines :=
                 goroutines s ++
                   [ {| g_doc := doc;
                        g_notebook := notebook;
                        g_diagConfig := core.LSP_Diagnostics (Notebook_Config notebook);
                        g_delay := true;
                        g_phase := Spawned |} ];
               output := output s |}) as Hfirst.
  { unfold TextDocumentDidChange. rewrite Huri, Hd.
    unfold refreshDiagnosticsOfDocument. simpl. rewrite lookup_insert_eq. simpl.
    rewrite Hflag.
    change (notebookOf _ (setContent (ApplyChanges (docContent d) changes) d))
      with (notebookOf s d).
    rewrite Hnb, Hcfg. reflexivity. }
  rewrite Hfirst.
  match goal with
  | |- context [fold_left _ batches ?s1] =>
      destruct (TextDocumentDidChange_burst_pending batches s1 uri doc
                  (setNeedsRefreshDiagnostics true
                     (setContent (ApplyChanges (docContent d) changes) d))
                  Huri (lookup_insert_eq _ _ _) eq_refl)
        as (Hgs & Hout & Hheap)
  end.
  split; [exact Hgs |]. split; [exact Hout |]. split; [exact Hheap |].
  intros uri' changes' Hclosed. unfold TextDocumentDidChange. rewrite Hclosed.
  reflexivity.
Qed.

(** On the examples: three changes in a row. *)
Lemma TextDocumentDidChange_burst_witness :
  let s := exampleServer "" core.LSPDiagnosticHint core.LSPDiagnosticError None in
  let s' :=
    fold_left (fun s changes =>
                 @TextDocumentDidChange toy toyPlatform s "file:///nb/notes/a.md"
                   changes)
              [["["]; ["[["]; ["[[missing]]"]] s in
  length (goroutines s') = 1%nat /\
  docContent <$> heap s' !! 0%nat = Some "[[missing]]".
Proof.
  intros s s'.
  destruct (TextDocumentDidChange_burst (H0 := toyPlatform) s
              "file:///nb/notes/a.md" 0%nat (exampleDocument "") exampleNotebook
              ["["] [["[["]; ["[[missing]]"]] eq_refl eq_refl eq_refl eq_refl eq_refl)
    as (Hgs & _ & Hheap & _).
  split.
  - exact (f_equal (@length _) Hgs).
  - exact (f_equal (fmap docContent) Hheap).
Defined.

(** ** Commands and the documents *)

Section CommandFacts.

Context `{Platform}.


End CommandFacts.

